(** * esphomerelease.changelog: the changelog generator

    A shallow embedding of [esphomerelease/changelog.py] and the properties
    of its eligibility filter, line formatter, label classifier and document
    assembler. *)

From Stdlib Require Import List String Ascii Bool ZArith NArith Lia.
From Stdlib Require Import Permutation Sorted DecimalString.
Import ListNotations.

Local Open Scope string_scope.
Local Open Scope list_scope.

(** ** Python strings and lists *)

(** The newline character of the Python literals. *)
Definition nl : string := String (ascii_of_nat 10) EmptyString.

(** [str(n)] for a non-negative integer. *)
Definition str_of_N (n : N) : string := NilEmpty.string_of_uint (N.to_uint n).

(** [n * s] for a string [s]. *)
Fixpoint str_mul (n : nat) (s : string) : string :=
  match n with
  | O => EmptyString
  | S n' => (s ++ str_mul n' s)%string
  end.

(** [sep.join(l)]. *)
Definition join (sep : string) (l : list string) : string := String.concat sep l.

(** [x in l] for a list of strings. *)
Definition str_in (x : string) (l : list string) : bool := existsb (String.eqb x) l.

(** [l.remove(x)] when [x] is known to occur: the first occurrence goes. *)
Fixpoint list_remove (x : string) (l : list string) : list string :=
  match l with
  | [] => []
  | y :: l' => if String.eqb y x then l' else y :: list_remove x l'
  end.

(** ** Exceptions that escape a function *)

Inductive exn : Set := KeyError.

Definition result (A : Type) : Type := (exn + A)%type.

Definition ret {A : Type} (a : A) : result A := inr a.

Definition bind {A B : Type} (m : result A) (k : A -> result B) : result B :=
  match m with
  | inl e => inl e
  | inr a => k a
  end.

Notation "x <- m ;; k" := (bind m (fun x => k))
  (at level 61, m at next level, right associativity).

(** ** [collections.defaultdict(list)], in insertion order *)

Definition defaultdict : Type := list (string * list string).

(** [d[k]] reads the list stored at [k] ... *)
Fixpoint dd_lookup (k : string) (d : defaultdict) : list string :=
  match d with
  | [] => []
  | (k', vs) :: d' => if String.eqb k k' then vs else dd_lookup k d'
  end.

(** ... and stores the empty list there when [k] is a new key. *)
Fixpoint dd_touch (k : string) (d : defaultdict) : defaultdict :=
  match d with
  | [] => [(k, [])]
  | (k', vs) :: d' =>
      if String.eqb k k' then (k', vs) :: d' else (k', vs) :: dd_touch k d'
  end.

Definition dd_getitem (k : string) (d : defaultdict) : list string * defaultdict :=
  (dd_lookup k d, dd_touch k d).

(** [d[k].append(v)]. *)
Fixpoint dd_append (k v : string) (d : defaultdict) : defaultdict :=
  match d with
  | [] => [(k, [v])]
  | (k', vs) :: d' =>
      if String.eqb k k' then (k', vs ++ [v]) :: d' else (k', vs) :: dd_append k v d'
  end.

(** ** Versions *)

Module Version.

(** Modelled from the spec: the [Version] class of [model.py], which is not
    part of the sources at hand.  A version identifier is
    [(major, minor, patch, beta)]; the order is lexicographic over
    [(major, minor, patch)], and a non-beta version is greater than a beta
    version with the same three numbers. *)
Record t : Set := mk { major : N; minor : N; patch : N; beta : bool }.

Definition compare (a b : t) : comparison :=
  match N.compare (major a) (major b) with
  | Eq =>
      match N.compare (minor a) (minor b) with
      | Eq =>
          match N.compare (patch a) (patch b) with
          | Eq =>
              match beta a, beta b with
              | true, false => Lt
              | false, true => Gt
              | _, _ => Eq
              end
          | c => c
          end
      | c => c
      end
  | c => c
  end.

(** [a <= b], [a > b] and [a < b]. *)
Definition leb (a b : t) : bool :=
  match compare a b with Gt => false | _ => true end.
Definition gtb (a b : t) : bool :=
  match compare a b with Gt => true | _ => false end.
Definition ltb (a b : t) : bool :=
  match compare a b with Lt => true | _ => false end.

(** Modelled from the spec: [Version.parse], which accepts the
    numeric-with-optional-beta-suffix shape (digits, a dot, digits, a dot,
    digits, then possibly [b] and digits) and raises [ValueError], here
    [None], on any other text. *)
Definition digit_of (c : ascii) : option N :=
  let n := N_of_ascii c in
  if andb (48 <=? n)%N (n <=? 57)%N then Some (n - 48)%N else None.

Fixpoint digits (acc : N) (s : string) : N * string :=
  match s with
  | EmptyString => (acc, EmptyString)
  | String c s' =>
      match digit_of c with
      | Some d => digits (10 * acc + d)%N s'
      | None => (acc, s)
      end
  end.

(** At least one digit, then the rest of the text. *)
Definition number (s : string) : option (N * string) :=
  match s with
  | EmptyString => None
  | String c _ =>
      match digit_of c with
      | Some _ => Some (digits 0 s)
      | None => None
      end
  end.

Definition dot (s : string) : option string :=
  match s with
  | String "."%char s' => Some s'
  | _ => None
  end.

Definition beta_suffix (s : string) : option bool :=
  match s with
  | EmptyString => Some false
  | String "b"%char s' =>
      match number s' with
      | Some (_, EmptyString) => Some true
      | _ => None
      end
  | _ => None
  end.

Definition parse (value : string) : option t :=
  match number value with
  | None => None
  | Some (ma, s1) =>
      match dot s1 with
      | None => None
      | Some s2 =>
          match number s2 with
          | None => None
          | Some (mi, s3) =>
              match dot s3 with
              | None => None
              | Some s4 =>
                  match number s4 with
                  | None => None
                  | Some (pa, s5) =>
                      match beta_suffix s5 with
                      | None => None
                      | Some b => Some (mk ma mi pa b)
                      end
                  end
              end
          end
      end
  end.

(** Modelled from the spec: [str(version)], used in the heading of a patch
    release. *)
Definition str (v : t) : string :=
  (str_of_N (major v) ++ "." ++ str_of_N (minor v) ++ "." ++ str_of_N (patch v)
     ++ (if beta v then "b" else EmptyString))%string.

End Version.

(** ** The pull-request records of [github3] *)

Module User.
Record t : Set := mk { login : string; html_url : string }.
End User.

Module Label.
(** One entry of [pr.labels], read as [label["name"]]. *)
Record t : Set := mk { name : string }.
End Label.

Module Milestone.
(** [pr.milestone], read as [pr.milestone["title"]]. *)
Record t : Set := mk { title : string }.
End Milestone.

Module PullRequest.
Record t : Set := mk {
  number : N;
  title : string;
  html_url : string;
  user : User.t;
  labels : list Label.t;
  milestone : option Milestone.t;   (* [None] when the PR has no milestone *)
  merged_at : Z
}.
End PullRequest.

(** [datetime.now()], as far as the heading of a patch release reads it:
    [f"{now:%B}"] and [now.day]. *)
Module Datetime.
Record t : Set := mk { month_name : string; day : N }.
End Datetime.

(** ** Module constants *)

(** Extra headers that are inserted in the changelog if one of these labels is
    applied; a [dict], iterated in the order it is written. *)
Definition LABEL_HEADERS : list (string * string) :=
  [ ("new-feature", "New Features");
    ("new-component", "New Components");
    ("new-platform", "New Platforms");
    ("breaking-change", "Breaking Changes");
    ("cherry-picked", "Beta Changes");
    ("notable-change", "Notable Changes") ].

Definition LINE_LABELS : list string :=
  [ "new-feature"; "new-component"; "new-platform"; "breaking-change";
    "notable-change" ].

Definition DEPENDENCY_LABELS : list string := [ "dependencies" ].

(** ** [format_heading] *)

(** The lookup [{1: "=", 2: "-", 3: "^"}[level]]. *)
Definition heading_prefix (level : nat) : result string :=
  match level with
  | 1 => ret "="
  | 2 => ret "-"
  | 3 => ret "^"
  | _ => inl KeyError
  end.

Definition format_heading (title : string) (markdown : bool) (level : nat)
  : result string :=
  if markdown then
    let c := str_mul level "#" in
    ret (c ++ " " ++ title ++ nl)%string
  else
    prefix <- heading_prefix level ;;
    ret (title ++ nl ++ str_mul (String.length title) prefix ++ nl)%string.

(** The state the jobs of [generate] share: the list [lines] they append to
    and what they print. *)
Record state : Set := mkState {
  lines : list (PullRequest.t * list string);
  stdout : list string
}.

Definition print (s : string) (st : state) : state :=
  mkState (lines st) (stdout st ++ [s]).

Definition lines_append (x : PullRequest.t * list string) (st : state) : state :=
  mkState (lines st ++ [x]) (stdout st).

Section Changelog.

(** [BranchType] of [model.py]; [generate] only hands it on to the project. *)
Variable BranchType : Type.

(** [Version.parse] and [str(version)] of [model.py]; [None] stands for the
    [ValueError] of a text that is not a version. *)
Variable Version_parse : string -> option Version.t.
Variable Version_str : Version.t -> string.

(** Modelled from the spec: [process_asynchronously] of [util.py], which is
    not part of the sources at hand.  It runs every job to completion, and
    the order of their effects is not specified: [completion_order] is the
    order in which the jobs take effect in a run. *)
Variable completion_order : list N -> list N.

(** What [generate] uses of a [Project]. *)
Record Project : Type := mkProject {
  shortname : string;
  prs_between : BranchType -> BranchType -> list N;
  get_pr : N -> PullRequest.t
}.

(** ** [format_line] *)

Definition format_line (project : Project) (pr : PullRequest.t)
    (markdown include_author : bool) : string :=
  let username := User.login (PullRequest.user pr) in
  let pr_link :=
    if markdown then
      ("[" ++ shortname project ++ "#" ++ str_of_N (PullRequest.number pr)
         ++ "](" ++ PullRequest.html_url pr ++ ")")%string
    else
      (":" ++ shortname project ++ "pr:`" ++ str_of_N (PullRequest.number pr)
         ++ "`")%string in
  let user_link :=
    if markdown then
      ("[@" ++ username ++ "](" ++ User.html_url (PullRequest.user pr) ++ ")")%string
    else
      (":ghuser:`" ++ username ++ "`")%string in
  let line := ("- " ++ PullRequest.title pr ++ " " ++ pr_link)%string in
  if include_author then (line ++ " by " ++ user_link)%string else line.

(** ** [generate]: the jobs (lines 89-112) *)

Definition job (project : Project) (base_version : Version.t)
    (head_version : option Version.t) (pr_number : N) (st : state) : state :=
  let pr := get_pr project pr_number in
  let labels := map Label.name (PullRequest.labels pr) in
  if str_in "reverted" labels then st
  else if str_in "cherry-picked" labels then
    match PullRequest.milestone pr with
    | None =>
        (* [pr.milestone["title"]] raises TypeError *)
        lines_append (pr, labels)
          (print ("PR " ++ str_of_N (PullRequest.number pr) ++ " has no milestone") st)
    | Some m =>
        let milestone := Milestone.title m in
        match Version_parse milestone with
        | None =>
            (* ValueError *)
            lines_append (pr, list_remove "cherry-picked" labels)
              (print ("Could not parse milestone " ++ milestone) st)
        | Some pick_version =>
            if Version.leb pick_version base_version then st
            else
              match head_version with
              | None =>
                  (* a version is not ordered against [None]: TypeError *)
                  lines_append (pr, labels)
                    (print ("PR " ++ str_of_N (PullRequest.number pr)
                              ++ " has no milestone") st)
              | Some head_version =>
                  if Version.gtb pick_version head_version then st
                  else lines_append (pr, labels) st
              end
        end
    end
  else lines_append (pr, labels) st.

(** The jobs, run in the order [order]. *)
Definition run_jobs (project : Project) (base_version : Version.t)
    (head_version : option Version.t) (order : list N) (st : state) : state :=
  fold_left (fun st pr_number => job project base_version head_version pr_number st)
    order st.

(** ** [lines.sort(key=lambda x: x[0].merged_at)]: a stable sort *)

Definition sort_key (x : PullRequest.t * list string) : Z :=
  PullRequest.merged_at (fst x).

Fixpoint insert_line (x : PullRequest.t * list string)
    (l : list (PullRequest.t * list string)) : list (PullRequest.t * list string) :=
  match l with
  | [] => [x]
  | y :: l' =>
      if (sort_key x <=? sort_key y)%Z then x :: y :: l' else y :: insert_line x l'
  end.

Definition sort_lines (l : list (PullRequest.t * list string))
  : list (PullRequest.t * list string) :=
  fold_right insert_line [] l.

(** ** [generate]: serializing the lines (lines 125-139) *)

Definition line_msg (project : Project) (markdown include_author : bool)
    (x : PullRequest.t * list string) : string :=
  let '(pr, labels) := x in
  let parts :=
    [format_line project pr markdown include_author]
      ++ map (fun label => ("(" ++ label ++ ")")%string)
           (filter (fun label => str_in label LINE_LABELS) labels) in
  join " " parts.

Definition has_dependency_label (labels : list string) : bool :=
  existsb (fun label => str_in label labels) DEPENDENCY_LABELS.

Definition serialize_line (project : Project)
    (markdown with_sections include_author : bool)
    (acc : list string * defaultdict) (x : PullRequest.t * list string)
  : list string * defaultdict :=
  let '(changes, label_groups) := acc in
  let msg := line_msg project markdown include_author x in
  let changes :=
    if negb with_sections || negb (has_dependency_label (snd x))
    then changes ++ [msg] else changes in
  let label_groups :=
    fold_left (fun d label => dd_append label msg d) (snd x) label_groups in
  (changes, label_groups).

Definition serialize (project : Project)
    (markdown with_sections include_author : bool)
    (lines : list (PullRequest.t * list string)) : list string * defaultdict :=
  fold_left (serialize_line project markdown with_sections include_author)
    lines ([], []).

(** ** [generate]: the headings (lines 143-175) *)

(** [head_version is not None and head_version.patch != 0 and not
    head_version.beta]. *)
Definition is_patch_release (head_version : option Version.t) : bool :=
  match head_version with
  | None => false
  | Some v => negb (Version.patch v =? 0)%N && negb (Version.beta v)
  end.

(** [f"{head_version}"]. *)
Definition format_version (head_version : option Version.t) : string :=
  match head_version with
  | Some v => Version_str v
  | None => "None"
  end.

(** The loop over [LABEL_HEADERS.items()]; reading [label_groups[label]]
    stores an empty list for a label no line carries. *)
Fixpoint header_groups (prerelease markdown : bool) (headers : list (string * string))
    (outp : list string) (label_groups : defaultdict)
  : result (list string * defaultdict) :=
  match headers with
  | [] => ret (outp, label_groups)
  | (label, title) :: headers' =>
      if negb prerelease && String.eqb title "Beta Changes" then
        header_groups prerelease markdown headers' outp label_groups
      else
        let '(prs, label_groups) := dd_getitem label label_groups in
        match prs with
        | [] => header_groups prerelease markdown headers' outp label_groups
        | _ :: _ =>
            heading <- format_heading title markdown 3 ;;
            header_groups prerelease markdown headers'
              (outp ++ [heading] ++ prs ++ [EmptyString]) label_groups
        end
  end.

Definition headings (now : Datetime.t) (head_version : option Version.t)
    (prerelease markdown with_sections : bool) (label_groups : defaultdict)
  : result (list string * defaultdict) :=
  if with_sections then
    if is_patch_release head_version then
      if negb markdown then
        heading <-
          format_heading
            ("Release " ++ format_version head_version ++ " - "
               ++ Datetime.month_name now ++ " " ++ str_of_N (Datetime.day now))%string
            false 2 ;;
        ret ([heading], label_groups)
      else ret ([], label_groups)
    else
      heading <- format_heading "Full list of changes" markdown 2 ;;
      r <- header_groups prerelease markdown LABEL_HEADERS [heading] label_groups ;;
      heading <- format_heading "All changes" markdown 3 ;;
      ret (fst r ++ [heading], snd r)
  else ret ([], label_groups).

(** ** [generate]: the unified list (lines 177-191) *)

Definition changes_block (markdown with_sections : bool) (changes : list string)
  : list string :=
  (if with_sections then
     if markdown then
       ["<details>"; "<summary>Show</summary>"; EmptyString] ++ changes ++ ["</details>"]
     else
       [".. collapse:: Show"; "    :open:"; EmptyString]
         ++ map (fun pr_line => ("    " ++ pr_line)%string) changes
   else changes)
    ++ [EmptyString].

(** ** [generate]: the dependency changes (lines 193-213) *)

Definition depdendency_prs (label_groups : defaultdict) : list string :=
  flat_map snd (filter (fun item => str_in (fst item) DEPENDENCY_LABELS) label_groups).

Definition dependency_block (markdown with_sections : bool) (label_groups : defaultdict)
  : result (list string) :=
  if with_sections then
    match depdendency_prs label_groups with
    | [] => ret []
    | _ :: _ =>
        heading <- format_heading "Dependency Changes" markdown 3 ;;
        if markdown then
          ret ([heading; "<details>"; "<summary>Show</summary>"; EmptyString]
                 ++ depdendency_prs label_groups ++ ["</details>"])
        else
          ret ([heading; ".. collapse:: Show"; EmptyString]
                 ++ map (fun pr_line => ("    " ++ pr_line)%string)
                      (depdendency_prs label_groups)
                 ++ [EmptyString])
    end
  else ret [].

(** ** [generate] *)

(** [lines] once the jobs have run in the order [order] and the list is
    sorted (lines 87-119). *)
Definition load_lines (project : Project) (base_version : Version.t)
    (head_version : option Version.t) (order : list N)
  : list (PullRequest.t * list string) :=
  let st := run_jobs project base_version head_version order (mkState [] []) in
  sort_lines (lines st).

(** From the sorted [lines] to the list [outp] (lines 121-213). *)
Definition assemble (now : Datetime.t) (project : Project)
    (head_version : option Version.t)
    (prerelease markdown with_sections include_author : bool)
    (lines : list (PullRequest.t * list string)) : result (list string) :=
  let '(changes, label_groups) :=
    serialize project markdown with_sections include_author lines in
  r <- headings now head_version prerelease markdown with_sections label_groups ;;
  let outp := fst r ++ changes_block markdown with_sections changes in
  deps <- dependency_block markdown with_sections (snd r) ;;
  ret (outp ++ deps).

(** The list [outp] that [generate] joins. *)
Definition generate_blocks (now : Datetime.t) (project : Project)
    (base : BranchType) (base_version : Version.t)
    (head : BranchType) (head_version : option Version.t)
    (prerelease markdown with_sections include_author : bool)
  : result (list string) :=
  let list_ := prs_between project base head in
  let lines :=
    load_lines project base_version head_version (completion_order list_) in
  assemble now project head_version prerelease markdown with_sections
    include_author lines.

Definition generate (now : Datetime.t) (project : Project)
    (base : BranchType) (base_version : Version.t)
    (head : BranchType) (head_version : option Version.t)
    (prerelease markdown with_sections include_author : bool)
  : result string :=
  outp <-
    generate_blocks now project base base_version head head_version
      prerelease markdown with_sections include_author ;;
  ret (join nl outp).

(** ** What the document is made of

    The definitions below are not part of the program: they name the pieces
    the properties speak about. *)

(** The text of a heading of level 1, 2 or 3. *)
Definition heading_str (title : string) (markdown : bool) (level : nat) : string :=
  match format_heading title markdown level with
  | inr s => s
  | inl _ => EmptyString
  end.

(** The order of the merge times: the record of [x] was merged no later
    than the record of [y]. *)
Definition merged_le (x y : PullRequest.t * list string) : Prop :=
  (PullRequest.merged_at (fst x) <= PullRequest.merged_at (fst y))%Z.

(** The labels a record carries, as the jobs read them. *)
Definition labels_of (pr : PullRequest.t) : list string :=
  map Label.name (PullRequest.labels pr).

(** The records behind the group of [label], in the order of the list: a
    record counts once per occurrence of [label] among its labels. *)
Definition group_records (label : string) (lines : list (PullRequest.t * list string))
  : list (PullRequest.t * list string) :=
  flat_map (fun x => repeat x (count_occ string_dec (snd x) label)) lines.

(** The lines a list of records contributes to the group of [label], in the
    order of the list: one per occurrence of [label] on a record. *)
Definition group_lines (project : Project) (markdown include_author : bool)
    (label : string) (lines : list (PullRequest.t * list string)) : list string :=
  flat_map
    (fun x =>
       repeat (line_msg project markdown include_author x)
         (count_occ string_dec (snd x) label))
    lines.

(** The records whose lines enter the unified list. *)
Definition in_unified (with_sections : bool) (x : PullRequest.t * list string) : bool :=
  negb with_sections || negb (has_dependency_label (snd x)).

(** The sub-headings and groups that follow "Full list of changes". *)
Definition label_sections (prerelease markdown : bool) (headers : list (string * string))
    (group : string -> list string) : list string :=
  flat_map
    (fun item =>
       if negb prerelease && String.eqb (snd item) "Beta Changes" then []
       else
         match group (fst item) with
         | [] => []
         | prs => [heading_str (snd item) markdown 3] ++ prs ++ [EmptyString]
         end)
    headers.

(** The collapsible block of a list of lines, as each format writes the
    unified list. *)
Definition collapse_open (markdown : bool) (entries : list string) : list string :=
  if markdown then
    ["<details>"; "<summary>Show</summary>"; EmptyString] ++ entries ++ ["</details>"]
  else
    [".. collapse:: Show"; "    :open:"; EmptyString]
      ++ map (fun pr_line => ("    " ++ pr_line)%string) entries.

(** The collapsible block that follows "Dependency Changes". *)
Definition collapse_deps (markdown : bool) (entries : list string) : list string :=
  if markdown then
    ["<details>"; "<summary>Show</summary>"; EmptyString] ++ entries ++ ["</details>"]
  else
    [".. collapse:: Show"; EmptyString]
      ++ map (fun pr_line => ("    " ++ pr_line)%string) entries ++ [EmptyString].

(** The annotations of a line, after the text [format_line] returns. *)
Fixpoint tags_text (tags : list string) : string :=
  match tags with
  | [] => EmptyString
  | t :: ts => (" (" ++ t ++ ")" ++ tags_text ts)%string
  end.

(** The title of the heading of a patch release. *)
Definition release_title (now : Datetime.t) (head_version : option Version.t) : string :=
  ("Release " ++ format_version head_version ++ " - "
     ++ Datetime.month_name now ++ " " ++ str_of_N (Datetime.day now))%string.

(** The blocks before the unified list. *)
Definition head_blocks (now : Datetime.t) (head_version : option Version.t)
    (prerelease markdown with_sections : bool) (group : string -> list string)
  : list string :=
  if with_sections then
    if is_patch_release head_version then
      if markdown then []
      else [heading_str (release_title now head_version) false 2]
    else
      [heading_str "Full list of changes" markdown 2]
        ++ label_sections prerelease markdown LABEL_HEADERS group
        ++ [heading_str "All changes" markdown 3]
  else [].

(** The blocks after the unified list. *)
Definition deps_blocks (markdown with_sections : bool) (deps : list string)
  : list string :=
  if with_sections then
    match deps with
    | [] => []
    | _ :: _ => heading_str "Dependency Changes" markdown 3 :: collapse_deps markdown deps
    end
  else [].

(** A record the jobs leave out for its [reverted] label. *)
Definition is_reverted (project : Project) (pr_number : N) : bool :=
  str_in "reverted" (labels_of (get_pr project pr_number)).

(** The first character of a block. *)
Definition first_char (s : string) : option ascii :=
  match s with
  | EmptyString => None
  | String c _ => Some c
  end.

(** A rendered line of a record starts with a dash. *)
Definition dash_line (s : string) : Prop := exists r, s = String "-" r.

(** The blocks of a document other than its headings: a line, an indented
    line, a marker of a collapsible block or an empty block. *)
Definition plain_block (b : string) : Prop :=
  (exists s, b = String "-" s) \/ (exists s, b = String " " s)
  \/ In b ["<details>"; "<summary>Show</summary>"; "</details>";
           ".. collapse:: Show"; EmptyString].

End Changelog.

Arguments shortname {BranchType} _.
Arguments prs_between {BranchType} _ _ _.
Arguments get_pr {BranchType} _ _.
Arguments is_reverted {BranchType} _ _.
Arguments format_line {BranchType} _ _ _ _.
Arguments job {BranchType} _ _ _ _ _ _.
Arguments run_jobs {BranchType} _ _ _ _ _ _.
Arguments load_lines {BranchType} _ _ _ _ _.
Arguments line_msg {BranchType} _ _ _ _.
Arguments serialize_line {BranchType} _ _ _ _ _ _.
Arguments serialize {BranchType} _ _ _ _ _.
Arguments group_lines {BranchType} _ _ _ _ _.
Arguments assemble {BranchType} _ _ _ _ _ _ _ _ _.
Arguments generate_blocks {BranchType} _ _ _ _ _ _ _ _ _ _ _ _ _.
Arguments generate {BranchType} _ _ _ _ _ _ _ _ _ _ _ _ _.

(** ** A small project for the examples *)

Module Demo.

Definition mkpr (n : N) (t : string) (labels : list string) (m : option string)
    (at_ : Z) : PullRequest.t :=
  PullRequest.mk n t "u" (User.mk "bob" "p") (map Label.mk labels)
    (option_map Milestone.mk m) at_.

Definition project_of (prs : list PullRequest.t) : Project unit :=
  mkProject unit "esphome"
    (fun _ _ => map PullRequest.number prs)
    (fun n =>
       match find (fun pr => (PullRequest.number pr =? n)%N) prs with
       | Some pr => pr
       | None => mkpr 0 EmptyString [] None 0
       end).

Definition now : Datetime.t := Datetime.mk "March" 7.

Definition v (major minor patch : N) : Version.t := Version.mk major minor patch false.

(** [generate] on the project of [prs], the jobs taking effect in the order
    of the list. *)
Definition blocks (prs : list PullRequest.t) (base_version : Version.t)
    (head_version : option Version.t) (prerelease markdown with_sections : bool)
  : result (list string) :=
  generate_blocks Version.parse Version.str (fun order => order) now
    (project_of prs) tt base_version tt head_version
    prerelease markdown with_sections true.

Definition job1 (pr : PullRequest.t) (base_version : Version.t)
    (head_version : option Version.t) : state :=
  job Version.parse (project_of [pr]) base_version head_version
    (PullRequest.number pr) (mkState [] []).

Definition base : Version.t := v 2024 2 0.
Definition head : Version.t := v 2024 3 1.
Definition head_minor : Version.t := v 2024 3 0.
Definition head_patch : Version.t := v 2024 3 2.

Definition pr_pick : PullRequest.t :=
  mkpr 7 "Fix" ["cherry-picked"] (Some "2024.3.0") 10.
Definition pr_reverted_pick : PullRequest.t :=
  mkpr 8 "Undone" ["reverted"; "cherry-picked"] (Some "2024.3.0") 11.
Definition pr_no_milestone : PullRequest.t :=
  mkpr 12 "Loose" ["cherry-picked"] None 15.
Definition pr_reverted_no_milestone : PullRequest.t :=
  mkpr 13 "Undone" ["reverted"; "cherry-picked"] None 16.
Definition pr_feature_dep : PullRequest.t :=
  mkpr 1 "A" ["new-feature"; "dependencies"] None 30.
Definition pr_dep : PullRequest.t := mkpr 2 "B" ["dependencies"] None 20.
Definition pr_tags : PullRequest.t :=
  mkpr 3 "C" ["breaking-change"; "new-feature"] None 10.
Definition pr_tags_swapped : PullRequest.t :=
  mkpr 3 "C" ["new-feature"; "breaking-change"] None 10.

End Demo.

(** * Properties *)

(** ** Strings and lists *)

Lemma str_in_In (x : string) (l : list string) : str_in x l = true <-> In x l.
Proof.
  unfold str_in. rewrite existsb_exists. split.
  - intros [y [Hy Heq]]. apply String.eqb_eq in Heq. now subst.
  - intros H. exists x. split; [assumption | apply String.eqb_refl].
Qed.

Lemma str_in_false (x : string) (l : list string) : str_in x l = false <-> ~ In x l.
Proof.
  rewrite <- str_in_In. destruct (str_in x l); split; congruence.
Qed.

Lemma append_inj_l (a b c : string) : (a ++ b)%string = (a ++ c)%string -> b = c.
Proof.
  induction a as [| ch a IH]; simpl; intros H; [assumption |].
  injection H as H. now apply IH.
Qed.

Lemma append_assoc (a b c : string) :
  ((a ++ b) ++ c)%string = (a ++ (b ++ c))%string.
Proof.
  induction a as [| ch a IH]; simpl; [reflexivity | now rewrite IH].
Qed.

Lemma join_cons (sep x y : string) (l : list string) :
  join sep (x :: y :: l) = (x ++ sep ++ join sep (y :: l))%string.
Proof. reflexivity. Qed.


Lemma list_remove_other (x y : string) (l : list string) :
  y <> x -> (In y (list_remove x l) <-> In y l).
Proof.
  intros Hne. induction l as [| z l IH]; simpl; [tauto |].
  destruct (String.eqb z x) eqn:E.
  - apply String.eqb_eq in E. subst. split; [tauto | intros [H | H]; congruence].
  - simpl. tauto.
Qed.

Lemma count_occ_str_in (l : list string) (x : string) :
  (0 < count_occ string_dec l x)%nat <-> str_in x l = true.
Proof.
  rewrite str_in_In. symmetry. apply count_occ_In.
Qed.

(** ** The dictionary of the groups *)

Lemma dd_lookup_append (k k' v : string) (d : defaultdict) :
  dd_lookup k (dd_append k' v d)
  = if String.eqb k k' then dd_lookup k d ++ [v] else dd_lookup k d.
Proof.
  induction d as [| [k0 vs] d IH]; simpl.
  - now destruct (String.eqb k k').
  - destruct (String.eqb k' k0) eqn:E0; simpl.
    + apply String.eqb_eq in E0. subst k0.
      destruct (String.eqb k k'); reflexivity.
    + destruct (String.eqb k k0) eqn:E1.
      * apply String.eqb_eq in E1. subst k0.
        rewrite String.eqb_sym in E0. now rewrite E0.
      * exact IH.
Qed.

Lemma dd_lookup_touch (k k' : string) (d : defaultdict) :
  dd_lookup k (dd_touch k' d) = dd_lookup k d.
Proof.
  induction d as [| [k0 vs] d IH]; simpl.
  - now destruct (String.eqb k k').
  - destruct (String.eqb k' k0); simpl; [reflexivity |].
    now destruct (String.eqb k k0).
Qed.

Lemma dd_append_keys (k v : string) (d : defaultdict) (x : string) :
  In x (map fst (dd_append k v d)) <-> x = k \/ In x (map fst d).
Proof.
  induction d as [| [k0 vs] d IH]; simpl.
  - intuition congruence.
  - destruct (String.eqb k k0) eqn:E; simpl.
    + apply String.eqb_eq in E. subst. intuition congruence.
    + rewrite IH. intuition congruence.
Qed.

Lemma dd_append_NoDup (k v : string) (d : defaultdict) :
  NoDup (map fst d) -> NoDup (map fst (dd_append k v d)).
Proof.
  induction d as [| [k0 vs] d IH]; simpl; intros H.
  - constructor; [simpl; tauto | constructor].
  - inversion H as [| ? ? Hn Hd]; subst.
    destruct (String.eqb k k0) eqn:E; simpl.
    + constructor; assumption.
    + apply String.eqb_neq in E. constructor; [| now apply IH].
      rewrite dd_append_keys. intros [-> | Hin]; [congruence | contradiction].
Qed.

Lemma dd_lookup_notin (k : string) (d : defaultdict) :
  ~ In k (map fst d) -> dd_lookup k d = [].
Proof.
  induction d as [| [k0 vs] d IH]; simpl; intros H; [reflexivity |].
  destruct (String.eqb k k0) eqn:E.
  - apply String.eqb_eq in E. subst. tauto.
  - apply IH. tauto.
Qed.

Lemma str_in_dependency (k : string) :
  str_in k DEPENDENCY_LABELS = String.eqb "dependencies" k.
Proof.
  unfold str_in, DEPENDENCY_LABELS. cbn [existsb].
  rewrite orb_false_r. apply String.eqb_sym.
Qed.

Lemma depdendency_prs_lookup (d : defaultdict) :
  NoDup (map fst d) -> depdendency_prs d = dd_lookup "dependencies" d.
Proof.
  unfold depdendency_prs.
  induction d as [| [k0 vs] d IH]; intros H; [reflexivity |].
  inversion H as [| ? ? Hn Hd]; subst.
  cbn [filter fst dd_lookup]. rewrite str_in_dependency.
  destruct (String.eqb "dependencies" k0) eqn:E.
  - apply String.eqb_eq in E. subst k0.
    cbn [flat_map snd].
    rewrite (IH Hd), (dd_lookup_notin _ _ Hn). apply app_nil_r.
  - now apply IH.
Qed.

Lemma depdendency_prs_touch (k : string) (d : defaultdict) :
  depdendency_prs (dd_touch k d) = depdendency_prs d.
Proof.
  unfold depdendency_prs.
  induction d as [| [k0 vs] d IH]; cbn [dd_touch].
  - cbn [filter fst]. now destruct (str_in k DEPENDENCY_LABELS).
  - destruct (String.eqb k k0); [reflexivity |].
    cbn [filter fst].
    destruct (str_in k0 DEPENDENCY_LABELS); cbn [flat_map snd]; now rewrite IH.
Qed.

(** ** The sort *)

Lemma insert_line_perm x l : Permutation (x :: l) (insert_line x l).
Proof.
  induction l as [| y l IH]; simpl; [reflexivity |].
  destruct (sort_key x <=? sort_key y)%Z; [reflexivity |].
  rewrite perm_swap. now constructor.
Qed.

Lemma sort_lines_perm l : Permutation l (sort_lines l).
Proof.
  induction l as [| x l IH]; simpl; [constructor |].
  rewrite <- insert_line_perm. now constructor.
Qed.

Lemma insert_line_sorted x l :
  StronglySorted merged_le l -> StronglySorted merged_le (insert_line x l).
Proof.
  induction 1 as [| y l Hs IH Hall]; simpl.
  - repeat constructor.
  - destruct (sort_key x <=? sort_key y)%Z eqn:E.
    + apply Z.leb_le in E. constructor; [now constructor |].
      constructor; [exact E |].
      eapply Forall_impl; [| exact Hall].
      unfold merged_le, sort_key in *. intros; lia.
    + apply Z.leb_gt in E. constructor; [exact IH |].
      rewrite <- insert_line_perm. constructor; [| exact Hall].
      unfold merged_le, sort_key in *. lia.
Qed.

Lemma sort_lines_sorted l : StronglySorted merged_le (sort_lines l).
Proof.
  induction l as [| x l IH]; simpl; [constructor | now apply insert_line_sorted].
Qed.

Lemma StronglySorted_filter {A : Type} (R : A -> A -> Prop) (f : A -> bool) l :
  StronglySorted R l -> StronglySorted R (filter f l).
Proof.
  induction 1 as [| x l Hs IH Hall]; simpl; [constructor |].
  destruct (f x); [| exact IH].
  constructor; [exact IH |].
  rewrite Forall_forall in *. intros y Hy. apply filter_In in Hy. now apply Hall.
Qed.

(** ** Headings *)

Lemma format_heading_ok (title : string) (markdown : bool) (level : nat) :
  (1 <= level <= 3)%nat ->
  format_heading title markdown level = inr (heading_str title markdown level).
Proof.
  intros Hl. unfold heading_str, format_heading.
  destruct markdown; [reflexivity |].
  destruct level as [| [| [| [| level]]]]; try lia; reflexivity.
Qed.

Lemma format_heading_2 (title : string) (markdown : bool) :
  format_heading title markdown 2 = inr (heading_str title markdown 2).
Proof. apply format_heading_ok. lia. Qed.

Lemma format_heading_3 (title : string) (markdown : bool) :
  format_heading title markdown 3 = inr (heading_str title markdown 3).
Proof. apply format_heading_ok. lia. Qed.

Lemma heading_str_markdown (title : string) (level : nat) :
  exists s, heading_str title true (S level) = String "#" s.
Proof. unfold heading_str, format_heading. simpl. eexists. reflexivity. Qed.

(** ** The annotations of a line *)

Lemma append_nil_r (s : string) : (s ++ EmptyString)%string = s.
Proof. induction s as [| c s IH]; simpl; [reflexivity | now rewrite IH]. Qed.

Lemma join_tags (x : string) (tags : list string) :
  join " " (x :: map (fun label => ("(" ++ label ++ ")")%string) tags)
  = (x ++ tags_text tags)%string.
Proof.
  revert x. induction tags as [| t ts IH]; intros x.
  - simpl. now rewrite append_nil_r.
  - cbn [map]. rewrite join_cons, IH. cbn [tags_text].
    f_equal. simpl. now rewrite append_assoc.
Qed.

Lemma tags_text_inj (l1 l2 : list string) :
  Forall (fun t => In t LINE_LABELS) l1 ->
  Forall (fun t => In t LINE_LABELS) l2 ->
  tags_text l1 = tags_text l2 -> l1 = l2.
Proof.
  intros H1. revert l2. induction H1 as [| a l1 Ha H1 IH]; intros l2 H2 Heq.
  - destruct H2 as [| b l2 Hb H2]; [reflexivity |].
    simpl in Heq. discriminate.
  - destruct H2 as [| b l2 Hb H2]; [simpl in Heq; discriminate |].
    assert (Hab : a = b /\ tags_text l1 = tags_text l2).
    { unfold LINE_LABELS in Ha, Hb. simpl in Ha, Hb.
      repeat (destruct Ha as [<- | Ha]; [| try contradiction]);
        repeat (destruct Hb as [<- | Hb]; [| try contradiction]);
        cbn [tags_text append] in Heq;
        first [ discriminate Heq | split; [reflexivity | congruence] ]. }
    destruct Hab as [-> Ht]. f_equal. now apply IH.
Qed.

Section Properties.

Context {BranchType : Type}.
Variable Version_parse : string -> option Version.t.
Variable Version_str : Version.t -> string.
Variable completion_order : list N -> list N.

(** ** Lines *)

Lemma format_line_dash (project : Project BranchType) pr markdown include_author :
  exists s, format_line project pr markdown include_author = String "-" s.
Proof.
  unfold format_line. destruct include_author; simpl; eexists; reflexivity.
Qed.

Lemma line_msg_tags (project : Project BranchType) markdown include_author pr labels :
  line_msg project markdown include_author (pr, labels)
  = (format_line project pr markdown include_author
       ++ tags_text (filter (fun label => str_in label LINE_LABELS) labels))%string.
Proof.
  unfold line_msg. cbn [app]. apply join_tags.
Qed.

Lemma line_msg_dash (project : Project BranchType) markdown include_author x :
  exists s, line_msg project markdown include_author x = String "-" s.
Proof.
  destruct x as [pr labels]. rewrite line_msg_tags.
  destruct (format_line_dash project pr markdown include_author) as [s ->].
  simpl. eexists. reflexivity.
Qed.

(** ** Classification *)

Lemma append_labels_lookup (msg l : string) (labels : list string) (d : defaultdict) :
  dd_lookup l (fold_left (fun d label => dd_append label msg d) labels d)
  = dd_lookup l d ++ repeat msg (count_occ string_dec labels l).
Proof.
  revert d. induction labels as [| a labels IH]; intros d; cbn [fold_left count_occ].
  - simpl. now rewrite app_nil_r.
  - rewrite IH, dd_lookup_append.
    destruct (string_dec a l) as [-> | Hne].
    + rewrite String.eqb_refl. cbn [repeat]. now rewrite <- app_assoc.
    + destruct (String.eqb l a) eqn:E; [| reflexivity].
      apply String.eqb_eq in E. congruence.
Qed.

Lemma append_labels_NoDup (msg : string) (labels : list string) (d : defaultdict) :
  NoDup (map fst d) ->
  NoDup (map fst (fold_left (fun d label => dd_append label msg d) labels d)).
Proof.
  revert d. induction labels as [| a labels IH]; intros d H; cbn [fold_left].
  - exact H.
  - apply IH. now apply dd_append_NoDup.
Qed.

Lemma serialize_fold (project : Project BranchType) markdown with_sections include_author
    (lines : list (PullRequest.t * list string)) (changes : list string)
    (d : defaultdict) :
  let r :=
    fold_left (serialize_line project markdown with_sections include_author)
      lines (changes, d) in
  fst r
  = changes
      ++ map (line_msg project markdown include_author)
           (filter (in_unified with_sections) lines)
  /\ (forall l,
        dd_lookup l (snd r)
        = dd_lookup l d ++ group_lines project markdown include_author l lines)
  /\ (NoDup (map fst d) -> NoDup (map fst (snd r))).
Proof.
  revert changes d. induction lines as [| x lines IH]; intros changes d; cbn zeta.
  - simpl. rewrite app_nil_r. split; [reflexivity |]. split; [| tauto].
    intros l. now rewrite app_nil_r.
  - cbn [fold_left]. unfold serialize_line at 2. cbn zeta.
    fold (in_unified with_sections x).
    match goal with
    | |- context [fold_left _ lines (?c, ?g)] =>
        destruct (IH c g) as (Hc & Hg & Hn)
    end.
    cbn zeta in Hc, Hg, Hn. split; [| split].
    + rewrite Hc. cbn [filter].
      destruct (in_unified with_sections x); cbn [map];
        [now rewrite <- app_assoc | reflexivity].
    + intros l. rewrite Hg, append_labels_lookup.
      unfold group_lines. cbn [flat_map]. now rewrite app_assoc.
    + intros Hd. apply Hn. now apply append_labels_NoDup.
Qed.

Lemma serialize_spec (project : Project BranchType) markdown with_sections include_author lines :
  exists d,
    serialize project markdown with_sections include_author lines
    = (map (line_msg project markdown include_author)
         (filter (in_unified with_sections) lines), d)
    /\ (forall l,
          dd_lookup l d = group_lines project markdown include_author l lines)
    /\ NoDup (map fst d).
Proof.
  destruct (serialize_fold project markdown with_sections include_author lines [] [])
    as (Hc & Hg & Hn).
  exists (snd (serialize project markdown with_sections include_author lines)).
  split; [| split].
  - rewrite (surjective_pairing
               (serialize project markdown with_sections include_author lines)) at 1.
    f_equal. exact Hc.
  - exact Hg.
  - apply Hn. constructor.
Qed.

(** ** The headings of the groups *)

Lemma label_sections_ext prerelease markdown headers (g1 g2 : string -> list string) :
  (forall l, g1 l = g2 l) ->
  label_sections prerelease markdown headers g1
  = label_sections prerelease markdown headers g2.
Proof.
  intros H. unfold label_sections.
  induction headers as [| item headers IH]; cbn [flat_map]; [reflexivity |].
  now rewrite IH, H.
Qed.

Lemma label_sections_cons prerelease markdown label title headers
    (g : string -> list string) :
  label_sections prerelease markdown ((label, title) :: headers) g
  = (if negb prerelease && String.eqb title "Beta Changes" then []
     else
       match g label with
       | [] => []
       | prs => [heading_str title markdown 3] ++ prs ++ [EmptyString]
       end)
      ++ label_sections prerelease markdown headers g.
Proof. reflexivity. Qed.

Lemma header_groups_spec prerelease markdown headers outp (d : defaultdict) :
  exists d',
    header_groups prerelease markdown headers outp d
    = inr (outp ++ label_sections prerelease markdown headers
                     (fun l => dd_lookup l d), d')
    /\ (forall l, dd_lookup l d' = dd_lookup l d)
    /\ depdendency_prs d' = depdendency_prs d.
Proof.
  revert outp d. induction headers as [| [label title] headers IH]; intros outp d.
  - exists d. cbn. rewrite app_nil_r. auto.
  - rewrite label_sections_cons. cbn [header_groups].
    destruct (negb prerelease && String.eqb title "Beta Changes").
    + destruct (IH outp d) as (d' & Hr & Hl & Hd). exists d'. auto.
    + unfold dd_getitem.
      destruct (dd_lookup label d) as [| pr prs] eqn:Eg.
      * destruct (IH outp (dd_touch label d)) as (d' & Hr & Hl & Hd).
        rewrite (label_sections_ext _ _ headers _ (fun l => dd_lookup l d)
                   (fun l => dd_lookup_touch l label d)) in Hr.
        exists d'. split; [exact Hr | split].
        -- intros l. now rewrite Hl, dd_lookup_touch.
        -- now rewrite Hd, depdendency_prs_touch.
      * rewrite format_heading_3. cbn [bind].
        destruct (IH (outp ++ [heading_str title markdown 3] ++ (pr :: prs)
                        ++ [EmptyString]) (dd_touch label d))
          as (d' & Hr & Hl & Hd).
        rewrite (label_sections_ext _ _ headers _ (fun l => dd_lookup l d)
                   (fun l => dd_lookup_touch l label d)) in Hr.
        exists d'. split; [| split].
        -- rewrite Hr. now rewrite <- !app_assoc.
        -- intros l. now rewrite Hl, dd_lookup_touch.
        -- now rewrite Hd, depdendency_prs_touch.
Qed.

Lemma headings_spec now head_version prerelease markdown with_sections
    (d : defaultdict) :
  exists d',
    headings Version_str now head_version prerelease markdown with_sections d
    = inr (head_blocks Version_str now head_version prerelease markdown
             with_sections (fun l => dd_lookup l d), d')
    /\ depdendency_prs d' = depdendency_prs d.
Proof.
  unfold headings, head_blocks.
  destruct with_sections; [| exists d; auto].
  destruct (is_patch_release head_version).
  - destruct markdown; cbn [negb]; [exists d; auto |].
    rewrite format_heading_2. exists d. auto.
  - rewrite format_heading_2. cbn [bind].
    destruct (header_groups_spec prerelease markdown LABEL_HEADERS
                [heading_str "Full list of changes" markdown 2] d)
      as (d' & Hr & _ & Hd).
    rewrite Hr. cbn [bind]. rewrite format_heading_3. cbn [bind fst snd].
    exists d'. split; [| exact Hd].
    unfold ret. now rewrite <- !app_assoc.
Qed.

Lemma dependency_block_spec markdown with_sections (d : defaultdict) :
  dependency_block markdown with_sections d
  = inr (deps_blocks markdown with_sections (depdendency_prs d)).
Proof.
  unfold dependency_block, deps_blocks.
  destruct with_sections; [| reflexivity].
  destruct (depdendency_prs d) as [| pr prs]; [reflexivity |].
  rewrite format_heading_3. cbn [bind].
  unfold collapse_deps. destruct markdown; reflexivity.
Qed.

(** The document, block by block. *)
Lemma assemble_spec now (project : Project BranchType) head_version
    prerelease markdown with_sections include_author lines :
  assemble Version_str now project head_version prerelease markdown with_sections
    include_author lines
  = inr (head_blocks Version_str now head_version prerelease markdown with_sections
           (fun l => group_lines project markdown include_author l lines)
         ++ changes_block markdown with_sections
              (map (line_msg project markdown include_author)
                   (filter (in_unified with_sections) lines))
         ++ deps_blocks markdown with_sections
              (group_lines project markdown include_author "dependencies" lines)).
Proof.
  unfold assemble.
  destruct (serialize_spec project markdown with_sections include_author lines)
    as (d & -> & Hg & Hn).
  destruct (headings_spec now head_version prerelease markdown with_sections d)
    as (d' & -> & Hd).
  cbn [bind fst snd]. rewrite dependency_block_spec. cbn [bind]. unfold ret.
  rewrite Hd, (depdendency_prs_lookup d Hn), Hg, <- app_assoc.
  do 2 f_equal.
  unfold head_blocks. destruct with_sections; [| reflexivity].
  destruct (is_patch_release head_version); [reflexivity |].
  do 2 f_equal. apply label_sections_ext. exact Hg.
Qed.

(** ** The jobs *)

Lemma job_reverted (project : Project BranchType) base_version head_version n st :
  is_reverted project n = true ->
  job Version_parse project base_version head_version n st = st.
Proof.
  unfold is_reverted, labels_of, job. now intros ->.
Qed.

(** A job adds to the shared state and reads nothing of it. *)
Lemma job_frame (project : Project BranchType) base_version head_version n st :
  job Version_parse project base_version head_version n st
  = mkState
      (lines st
         ++ lines (job Version_parse project base_version head_version n
                     (mkState [] [])))
      (stdout st
         ++ stdout (job Version_parse project base_version head_version n
                      (mkState [] []))).
Proof.
  unfold job, lines_append, print.
  destruct st as [ls out].
  repeat match goal with
         | |- context [if ?b then _ else _] => destruct b
         | |- context [match ?o with Some _ => _ | None => _ end] => destruct o
         end;
    cbn [lines stdout app]; rewrite ?app_nil_r; reflexivity.
Qed.

Lemma job_entries (project : Project BranchType) base_version head_version n :
  Forall
    (fun x =>
       fst x = get_pr project n
       /\ is_reverted project n = false
       /\ incl (snd x) (labels_of (fst x)))
    (lines (job Version_parse project base_version head_version n (mkState [] []))).
Proof.
  unfold job, lines_append, print, is_reverted, labels_of.
  destruct (str_in "reverted" _) eqn:Er; [constructor |].
  assert (Hrm : forall l, incl (list_remove "cherry-picked" l) l).
  { intros l y Hy. induction l as [| z l IH]; [exact Hy |].
    simpl in Hy. destruct (String.eqb z "cherry-picked").
    - now right.
    - destruct Hy as [-> | Hy]; [now left | right; auto]. }
  repeat match goal with
         | |- context [if ?b then _ else _] => destruct b
         | |- context [match ?o with Some _ => _ | None => _ end] => destruct o
         end;
    cbn [lines app]; repeat constructor; cbn [fst snd];
    auto using incl_refl.
Qed.

Lemma run_jobs_lines (project : Project BranchType) base_version head_version order st :
  lines (run_jobs Version_parse project base_version head_version order st)
  = lines st
      ++ flat_map
           (fun n =>
              lines (job Version_parse project base_version head_version n
                       (mkState [] [])))
           order.
Proof.
  unfold run_jobs. revert st.
  induction order as [| n order IH]; intros st; cbn [fold_left flat_map].
  - now rewrite app_nil_r.
  - rewrite IH, (job_frame project base_version head_version n st).
    cbn [lines]. now rewrite app_assoc.
Qed.

Lemma run_jobs_reverted (project : Project BranchType) base_version head_version order st :
  run_jobs Version_parse project base_version head_version order st
  = run_jobs Version_parse project base_version head_version
      (filter (fun n => negb (is_reverted project n)) order) st.
Proof.
  unfold run_jobs. revert st.
  induction order as [| n order IH]; intros st; cbn [fold_left filter]; [reflexivity |].
  destruct (is_reverted project n) eqn:Er; cbn [negb fold_left].
  - rewrite job_reverted by exact Er. apply IH.
  - apply IH.
Qed.

Lemma load_lines_entries (project : Project BranchType) base_version head_version order x :
  In x (load_lines Version_parse project base_version head_version order) ->
  exists n,
    In n order /\ fst x = get_pr project n /\ is_reverted project n = false
    /\ incl (snd x) (labels_of (fst x)).
Proof.
  unfold load_lines. intros Hx.
  apply (Permutation_in _ (Permutation_sym (sort_lines_perm _))) in Hx.
  rewrite run_jobs_lines in Hx. cbn [lines app] in Hx.
  apply in_flat_map in Hx. destruct Hx as (n & Hn & Hx).
  exists n. split; [exact Hn |].
  pose proof (job_entries project base_version head_version n) as Hall.
  rewrite Forall_forall in Hall. exact (Hall x Hx).
Qed.

Lemma load_lines_sorted (project : Project BranchType) base_version head_version order :
  StronglySorted merged_le
    (load_lines Version_parse project base_version head_version order).
Proof. apply sort_lines_sorted. Qed.

(** ** Groups *)

Lemma has_dependency_label_In (labels : list string) :
  has_dependency_label labels = true <-> In "dependencies" labels.
Proof.
  unfold has_dependency_label, DEPENDENCY_LABELS. cbn [existsb].
  rewrite orb_false_r. apply str_in_In.
Qed.

Lemma group_lines_In (project : Project BranchType) markdown include_author l lines m :
  In m (group_lines project markdown include_author l lines)
  <-> exists x, In x lines /\ In l (snd x)
                /\ m = line_msg project markdown include_author x.
Proof.
  unfold group_lines. rewrite in_flat_map. split.
  - intros (x & Hx & Hm). exists x. split; [exact Hx |].
    pose proof (repeat_spec _ _ _ Hm) as ->. split; [| reflexivity].
    apply (count_occ_In string_dec).
    destruct (count_occ string_dec (snd x) l); [contradiction | lia].
  - intros (x & Hx & Hl & ->). exists x. split; [exact Hx |].
    apply (count_occ_In string_dec) in Hl.
    destruct (count_occ string_dec (snd x) l); [lia | now left].
Qed.

Lemma group_lines_nil (project : Project BranchType) markdown include_author l lines :
  group_lines project markdown include_author l lines = []
  <-> (forall x, In x lines -> ~ In l (snd x)).
Proof.
  split.
  - intros Hnil x Hx Hl.
    assert (Hin : In (line_msg project markdown include_author x)
                    (group_lines project markdown include_author l lines)).
    { apply group_lines_In. exists x. auto. }
    rewrite Hnil in Hin. contradiction.
  - intros Hno.
    destruct (group_lines project markdown include_author l lines) as [| m ms] eqn:E;
      [reflexivity |].
    assert (Hin : In m (group_lines project markdown include_author l lines))
      by (rewrite E; now left).
    apply group_lines_In in Hin. destruct Hin as (x & Hx & Hl & _).
    destruct (Hno x Hx Hl).
Qed.

Lemma group_lines_dash (project : Project BranchType) markdown include_author l lines :
  Forall dash_line (group_lines project markdown include_author l lines).
Proof.
  rewrite Forall_forall. intros m Hm.
  apply group_lines_In in Hm. destruct Hm as (x & _ & _ & ->).
  apply line_msg_dash.
Qed.

(** On records whose labels do not repeat, a group is the sub-list of the
    records that carry its label. *)
Lemma group_lines_filter (project : Project BranchType) markdown include_author l lines :
  Forall (fun x => NoDup (snd x)) lines ->
  group_lines project markdown include_author l lines
  = map (line_msg project markdown include_author)
      (filter (fun x => str_in l (snd x)) lines).
Proof.
  unfold group_lines.
  induction 1 as [| x lines Hx _ IH]; cbn [flat_map filter]; [reflexivity |].
  rewrite IH.
  destruct (str_in l (snd x)) eqn:E.
  - apply str_in_In in E.
    assert (Hc : count_occ string_dec (snd x) l = 1%nat).
    { apply (proj1 (NoDup_count_occ' string_dec (snd x)) Hx). exact E. }
    rewrite Hc. reflexivity.
  - apply str_in_false in E.
    apply (count_occ_not_In string_dec) in E. rewrite E. reflexivity.
Qed.

(** ** The blocks of a document *)

Lemma plain_first_char (b : string) (c : ascii) :
  plain_block b -> first_char b = Some c ->
  In c ["-"%char; " "%char; "<"%char; "."%char].
Proof.
  unfold plain_block. intros [[s ->] | [[s ->] | H]] Hc.
  - injection Hc as <-. simpl. auto.
  - injection Hc as <-. simpl. auto.
  - simpl in H.
    repeat (destruct H as [<- | H]; [simpl in Hc; try discriminate;
                                      injection Hc as <-; simpl; auto |]).
    contradiction.
Qed.

Lemma heading_first_char (title : string) (markdown : bool) (level : nat) (c : ascii) :
  first_char title = Some c ->
  first_char (heading_str title markdown (S (S level)))
  = if markdown then Some "#"%char
    else match level with 0%nat | 1%nat => Some c | _ => None end.
Proof.
  intros Hc. destruct title as [| c' title]; [discriminate |].
  injection Hc as ->.
  unfold heading_str, format_heading. destruct markdown; [reflexivity |].
  destruct level as [| [| level]]; reflexivity.
Qed.

Lemma dash_plain (b : string) : dash_line b -> plain_block b.
Proof. intros H. now left. Qed.

Lemma changes_block_plain markdown with_sections changes b :
  Forall dash_line changes ->
  In b (changes_block markdown with_sections changes) -> plain_block b.
Proof.
  intros Hall. rewrite Forall_forall in Hall. unfold changes_block.
  intros Hb. apply in_app_or in Hb. destruct Hb as [Hb | Hb].
  - destruct with_sections; [| now apply dash_plain, Hall].
    destruct markdown.
    + apply in_app_or in Hb. destruct Hb as [Hb | Hb].
      * right. right. simpl in Hb. simpl. tauto.
      * apply in_app_or in Hb. destruct Hb as [Hb | Hb].
        -- now apply dash_plain, Hall.
        -- right. right. simpl in Hb. simpl. tauto.
    + apply in_app_or in Hb. destruct Hb as [Hb | Hb].
      * simpl in Hb. destruct Hb as [<- | [<- | [<- | []]]].
        -- right. right. simpl. tauto.
        -- right. left. eexists. reflexivity.
        -- right. right. simpl. tauto.
      * apply in_map_iff in Hb. destruct Hb as (m & <- & _).
        right. left. eexists. reflexivity.
  - right. right. simpl in Hb. simpl. tauto.
Qed.

Lemma collapse_deps_plain markdown deps b :
  Forall dash_line deps -> In b (collapse_deps markdown deps) -> plain_block b.
Proof.
  intros Hall. rewrite Forall_forall in Hall. unfold collapse_deps.
  destruct markdown; intros Hb.
  - apply in_app_or in Hb. destruct Hb as [Hb | Hb].
    + right. right. simpl in Hb. simpl. tauto.
    + apply in_app_or in Hb. destruct Hb as [Hb | Hb].
      * now apply dash_plain, Hall.
      * right. right. simpl in Hb. simpl. tauto.
  - apply in_app_or in Hb. destruct Hb as [Hb | Hb].
    + right. right. simpl in Hb. simpl. tauto.
    + apply in_app_or in Hb. destruct Hb as [Hb | Hb].
      * apply in_map_iff in Hb. destruct Hb as (m & <- & _).
        right. left. eexists. reflexivity.
      * right. right. simpl in Hb. simpl. tauto.
Qed.

Lemma label_sections_blocks prerelease markdown headers (g : string -> list string) b :
  (forall l, Forall dash_line (g l)) ->
  In b (label_sections prerelease markdown headers g) ->
  plain_block b
  \/ exists item, In item headers /\ b = heading_str (snd item) markdown 3.
Proof.
  intros Hg. unfold label_sections. rewrite in_flat_map.
  intros (item & Hitem & Hb).
  destruct (negb prerelease && String.eqb (snd item) "Beta Changes"); [contradiction |].
  specialize (Hg (fst item)). rewrite Forall_forall in Hg.
  destruct (g (fst item)) as [| pr prs]; [contradiction |].
  destruct Hb as [<- | Hb]; [right; exists item; auto |].
  left. apply (in_app_or (pr :: prs) [EmptyString]) in Hb. destruct Hb as [Hb | Hb].
  - now apply dash_plain, Hg.
  - right. right. simpl in Hb. simpl. tauto.
Qed.

Lemma release_first_char now head_version :
  first_char (heading_str (release_title Version_str now head_version) false 2)
  = Some "R"%char.
Proof. reflexivity. Qed.

(** Every block of a document is a line, a marker, or one of the headings of
    its shape. *)
Lemma document_blocks now head_version prerelease markdown with_sections
    (g : string -> list string) changes deps b :
  (forall l, Forall dash_line (g l)) ->
  Forall dash_line changes ->
  Forall dash_line deps ->
  In b (head_blocks Version_str now head_version prerelease markdown with_sections g
        ++ changes_block markdown with_sections changes
        ++ deps_blocks markdown with_sections deps) ->
  plain_block b
  \/ (with_sections = true /\ is_patch_release head_version = true
      /\ markdown = false
      /\ b = heading_str (release_title Version_str now head_version) false 2)
  \/ (with_sections = true /\ is_patch_release head_version = false
      /\ (b = heading_str "Full list of changes" markdown 2
          \/ b = heading_str "All changes" markdown 3
          \/ exists item, In item LABEL_HEADERS
                          /\ b = heading_str (snd item) markdown 3))
  \/ (with_sections = true /\ deps <> []
      /\ b = heading_str "Dependency Changes" markdown 3).
Proof.
  intros Hg Hc Hd Hb.
  apply in_app_or in Hb. destruct Hb as [Hb | Hb].
  - unfold head_blocks in Hb.
    destruct with_sections; [| contradiction].
    destruct (is_patch_release head_version).
    + destruct markdown; [contradiction |].
      destruct Hb as [<- | []]. right. left. auto.
    + cbn [app] in Hb.
      destruct Hb as [<- | Hb]; [right; right; left; auto |].
      apply in_app_or in Hb. destruct Hb as [Hb | Hb].
      * apply (label_sections_blocks _ _ _ _ _ Hg) in Hb.
        destruct Hb as [Hb | Hb]; [now left |].
        right. right. left. auto.
      * destruct Hb as [<- | []]. right. right. left. auto.
  - apply in_app_or in Hb. destruct Hb as [Hb | Hb].
    + left. exact (changes_block_plain _ _ _ _ Hc Hb).
    + unfold deps_blocks in Hb. destruct with_sections; [| contradiction].
      destruct deps as [| m deps]; [contradiction |].
      destruct Hb as [<- | Hb].
      * right. right. right. repeat split. discriminate.
      * left. exact (collapse_deps_plain _ _ _ Hd Hb).
Qed.

(** ** Headings are told apart *)

Lemma heading_not_plain (title : string) (markdown : bool) (level : nat) (c : ascii) :
  first_char title = Some c ->
  ~ In c ["-"%char; " "%char; "<"%char; "."%char] ->
  (level <= 1)%nat ->
  ~ plain_block (heading_str title markdown (S (S level))).
Proof.
  intros Hc Hn Hl Hp.
  pose proof (heading_first_char title markdown level c Hc) as Hf.
  destruct markdown.
  - apply (plain_first_char _ _ Hp) in Hf. simpl in Hf.
    intuition discriminate.
  - destruct level as [| [| level]]; [| | lia];
      apply (plain_first_char _ _ Hp) in Hf; contradiction.
Qed.

Lemma dependency_heading_fresh (markdown : bool) (b : string) :
  b = heading_str "Full list of changes" markdown 2
  \/ b = heading_str "All changes" markdown 3
  \/ (exists item, In item LABEL_HEADERS /\ b = heading_str (snd item) markdown 3) ->
  b <> heading_str "Dependency Changes" markdown 3.
Proof.
  intros [-> | [-> | (item & Hin & ->)]].
  - destruct markdown; vm_compute; discriminate.
  - destruct markdown; vm_compute; discriminate.
  - unfold LABEL_HEADERS in Hin. simpl in Hin.
    repeat (destruct Hin as [<- | Hin];
            [destruct markdown; vm_compute; discriminate |]).
    contradiction.
Qed.

Lemma all_changes_heading_fresh (markdown : bool) :
  heading_str "Dependency Changes" markdown 3 <> heading_str "All changes" markdown 3.
Proof. destruct markdown; vm_compute; discriminate. Qed.

(** No block of a document without the heading of a patch release starts
    like that heading. *)
Lemma full_document_first_char now head_version prerelease markdown with_sections
    (g : string -> list string) changes deps b :
  (forall l, Forall dash_line (g l)) ->
  Forall dash_line changes ->
  Forall dash_line deps ->
  is_patch_release head_version = false ->
  In b (head_blocks Version_str now head_version prerelease markdown with_sections g
        ++ changes_block markdown with_sections changes
        ++ deps_blocks markdown with_sections deps) ->
  first_char b <> Some "R"%char.
Proof.
  intros Hg Hc Hd Hp Hb Hf.
  destruct (document_blocks _ _ _ _ _ _ _ _ _ Hg Hc Hd Hb)
    as [Hpl | [(_ & Hp' & _) | [(_ & _ & Hh) | (_ & _ & ->)]]].
  - apply (plain_first_char _ _ Hpl) in Hf. simpl in Hf. intuition discriminate.
  - congruence.
  - destruct Hh as [-> | [-> | (item & Hin & ->)]].
    + destruct markdown; vm_compute in Hf; discriminate.
    + destruct markdown; vm_compute in Hf; discriminate.
    + unfold LABEL_HEADERS in Hin. simpl in Hin.
      repeat (destruct Hin as [<- | Hin];
              [destruct markdown; vm_compute in Hf; discriminate |]).
      contradiction.
  - destruct markdown; vm_compute in Hf; discriminate.
Qed.

(** ** The annotations follow the label list of the record *)

(** C1, as amended: the annotation labels of a record are appended to its
    line as parenthetical tags in the order in which they occur in the
    record's own label list.  Two label lists give the same line exactly
    when their annotation labels, read in list order, are the same: a
    permutation that moves one annotation label past another changes the
    line. *)
Theorem C1_tags_follow_label_list (project : Project BranchType)
    (markdown include_author : bool) (pr : PullRequest.t)
    (labels1 labels2 : list string) :
  (line_msg project markdown include_author (pr, labels1)
   = (format_line project pr markdown include_author
        ++ tags_text (filter (fun label => str_in label LINE_LABELS) labels1))%string)
  /\ (line_msg project markdown include_author (pr, labels1)
      = line_msg project markdown include_author (pr, labels2)
      <-> filter (fun label => str_in label LINE_LABELS) labels1
          = filter (fun label => str_in label LINE_LABELS) labels2).
Proof.
  split; [apply line_msg_tags |].
  rewrite !line_msg_tags. split.
  - intros H. apply append_inj_l in H.
    apply tags_text_inj; [| | exact H];
      rewrite Forall_forall; intros t Ht; apply filter_In in Ht;
      now apply str_in_In.
  - now intros ->.
Qed.

(** ** The document as a whole *)

Lemma generate_blocks_spec now (project : Project BranchType) base base_version
    head head_version prerelease markdown with_sections include_author :
  generate_blocks Version_parse Version_str completion_order now project base
    base_version head head_version prerelease markdown with_sections include_author
  = inr (head_blocks Version_str now head_version prerelease markdown with_sections
           (fun l =>
              group_lines project markdown include_author l
                (load_lines Version_parse project base_version head_version
                   (completion_order (prs_between project base head))))
         ++ changes_block markdown with_sections
              (map (line_msg project markdown include_author)
                 (filter (in_unified with_sections)
                    (load_lines Version_parse project base_version head_version
                       (completion_order (prs_between project base head)))))
         ++ deps_blocks markdown with_sections
              (group_lines project markdown include_author "dependencies"
                 (load_lines Version_parse project base_version head_version
                    (completion_order (prs_between project base head))))).
Proof. unfold generate_blocks. apply assemble_spec. Qed.

Lemma changes_block_sections markdown changes :
  changes_block markdown true changes
  = collapse_open markdown changes ++ [EmptyString].
Proof. reflexivity. Qed.

Lemma unified_dash (project : Project BranchType) markdown include_author
    (f : PullRequest.t * list string -> bool) lines :
  Forall dash_line (map (line_msg project markdown include_author) (filter f lines)).
Proof.
  rewrite Forall_forall. intros m Hm. apply in_map_iff in Hm.
  destruct Hm as (x & <- & _). apply line_msg_dash.
Qed.

Lemma dependency_group_nil (project : Project BranchType) markdown include_author lines :
  group_lines project markdown include_author "dependencies" lines = []
  <-> existsb (fun x => has_dependency_label (snd x)) lines = false.
Proof.
  rewrite group_lines_nil. split.
  - intros H. apply not_true_is_false. intros He.
    apply existsb_exists in He. destruct He as (x & Hx & Hd).
    apply has_dependency_label_In in Hd. exact (H x Hx Hd).
  - intros He x Hx Hd.
    assert (Ht : existsb (fun x => has_dependency_label (snd x)) lines = true).
    { apply existsb_exists. exists x. split; [exact Hx |].
      now apply has_dependency_label_In. }
    congruence.
Qed.

(** C2, as amended: the "Dependency Changes" heading and its collapsible
    block close the document exactly when section mode is enabled and at
    least one included record carries a dependency label; the block holds the
    lines of those records.  With section mode disabled, or with no such
    record, the document has no such heading. *)
Theorem C2_dependency_changes_in_section_mode (now : Datetime.t)
    (project : Project BranchType) (base : BranchType) (base_version : Version.t)
    (head : BranchType) (head_version : option Version.t)
    (prerelease markdown with_sections include_author : bool) :
  let L :=
    load_lines Version_parse project base_version head_version
      (completion_order (prs_between project base head)) in
  let deps := group_lines project markdown include_author "dependencies" L in
  let heading := heading_str "Dependency Changes" markdown 3 in
  exists body,
    generate_blocks Version_parse Version_str completion_order now project base
      base_version head head_version prerelease markdown with_sections
      include_author
    = inr (body
           ++ (if with_sections
                  && existsb (fun x => has_dependency_label (snd x)) L
               then heading :: collapse_deps markdown deps
               else []))
    /\ ~ In heading body
    /\ (forall m,
          In m deps
          <-> exists x, In x L /\ has_dependency_label (snd x) = true
                        /\ m = line_msg project markdown include_author x).
Proof.
  cbv zeta.
  set (L := load_lines Version_parse project base_version head_version
              (completion_order (prs_between project base head))).
  exists (head_blocks Version_str now head_version prerelease markdown with_sections
            (fun l => group_lines project markdown include_author l L)
          ++ changes_block markdown with_sections
               (map (line_msg project markdown include_author)
                  (filter (in_unified with_sections) L))).
  split; [| split].
  - rewrite generate_blocks_spec. fold L. rewrite <- app_assoc. do 3 f_equal.
    unfold deps_blocks.
    destruct with_sections; [| reflexivity]. cbn [andb].
    destruct (existsb (fun x => has_dependency_label (snd x)) L) eqn:E.
    + destruct (group_lines project markdown include_author "dependencies" L) eqn:Eg;
        [| reflexivity].
      apply dependency_group_nil in Eg. congruence.
    + now rewrite (proj2 (dependency_group_nil project markdown include_author L) E).
  - intros Hin.
    assert (Hb : In (heading_str "Dependency Changes" markdown 3)
                   (head_blocks Version_str now head_version prerelease markdown
                      with_sections
                      (fun l => group_lines project markdown include_author l L)
                    ++ changes_block markdown with_sections
                         (map (line_msg project markdown include_author)
                            (filter (in_unified with_sections) L))
                    ++ deps_blocks markdown with_sections [])).
    { replace (deps_blocks markdown with_sections []) with (@nil string)
        by (now destruct with_sections).
      now rewrite app_nil_r. }
    apply document_blocks in Hb;
      [| intros l; apply group_lines_dash | apply unified_dash | constructor].
    destruct Hb as [Hp | [(_ & _ & -> & He) | [(_ & _ & Hh) | (_ & Hn & _)]]].
    + revert Hp. apply (heading_not_plain _ _ 1 "D"%char); [reflexivity | | lia].
      simpl. intuition discriminate.
    + apply (f_equal first_char) in He. rewrite release_first_char in He.
      vm_compute in He. discriminate.
    + now apply dependency_heading_fresh in Hh.
    + now apply Hn.
  - intros m. rewrite group_lines_In. split.
    + intros (x & Hx & Hd & ->). exists x.
      split; [exact Hx |]. split; [now apply has_dependency_label_In | reflexivity].
    + intros (x & Hx & Hd & ->). exists x.
      split; [exact Hx |]. split; [now apply has_dependency_label_In | reflexivity].
Qed.

(** C3, as amended: with section mode enabled the unified list is always
    rendered in a collapsible block, in both output formats.  The "All
    changes" sub-heading comes right before it when the head version is not
    a non-beta patch version; for a non-beta patch version the document has
    no "All changes" heading at all. *)
Theorem C3_all_changes_block (now : Datetime.t)
    (project : Project BranchType) (base : BranchType) (base_version : Version.t)
    (head : BranchType) (head_version : option Version.t)
    (prerelease markdown include_author : bool) :
  let L :=
    load_lines Version_parse project base_version head_version
      (completion_order (prs_between project base head)) in
  let unified :=
    map (line_msg project markdown include_author)
      (filter (fun x => negb (has_dependency_label (snd x))) L) in
  exists head_part deps_part,
    generate_blocks Version_parse Version_str completion_order now project base
      base_version head head_version prerelease markdown true include_author
    = inr (head_part ++ collapse_open markdown unified ++ [EmptyString] ++ deps_part)
    /\ if is_patch_release head_version then
         ~ In (heading_str "All changes" markdown 3)
             (head_part ++ collapse_open markdown unified ++ [EmptyString]
                ++ deps_part)
       else
         exists sections,
           head_part
           = heading_str "Full list of changes" markdown 2
               :: sections ++ [heading_str "All changes" markdown 3].
Proof.
  cbv zeta.
  set (L := load_lines Version_parse project base_version head_version
              (completion_order (prs_between project base head))).
  set (unified := map (line_msg project markdown include_author)
                    (filter (fun x => negb (has_dependency_label (snd x))) L)).
  exists (head_blocks Version_str now head_version prerelease markdown true
            (fun l => group_lines project markdown include_author l L)).
  exists (deps_blocks markdown true
            (group_lines project markdown include_author "dependencies" L)).
  assert (Hspec :
            generate_blocks Version_parse Version_str completion_order now project
              base base_version head head_version prerelease markdown true
              include_author
            = inr (head_blocks Version_str now head_version prerelease markdown true
                     (fun l => group_lines project markdown include_author l L)
                   ++ changes_block markdown true unified
                   ++ deps_blocks markdown true
                        (group_lines project markdown include_author
                           "dependencies" L))).
  { apply generate_blocks_spec. }
  assert (Heq : forall (h d : list string),
             h ++ collapse_open markdown unified ++ [EmptyString] ++ d
             = h ++ changes_block markdown true unified ++ d).
  { intros h d. rewrite changes_block_sections. now rewrite <- app_assoc. }
  split; [now rewrite Heq |].
  destruct (is_patch_release head_version) eqn:Ep.
  - rewrite Heq. intros Hb.
    apply document_blocks in Hb;
      [| intros l; apply group_lines_dash | apply unified_dash
       | apply group_lines_dash].
    destruct Hb as [Hp | [(_ & _ & -> & He) | [(_ & Hf & _) | (_ & _ & He)]]].
    + revert Hp. apply (heading_not_plain _ _ 1 "A"%char); [reflexivity | | lia].
      simpl. intuition discriminate.
    + apply (f_equal first_char) in He. rewrite release_first_char in He.
      vm_compute in He. discriminate.
    + congruence.
    + symmetry in He. now apply all_changes_heading_fresh in He.
  - unfold head_blocks. rewrite Ep. cbn [app]. eexists. reflexivity.
Qed.

(** C10: with the head version absent and section mode enabled the
    assembler returns a document, and it is the full sectioned one: the
    "Full list of changes" heading, the label sub-headings with their
    groups, the "All changes" heading and the collapsible unified list.  No
    block of it is the heading of a patch release. *)
Theorem C10_absent_head_version (now : Datetime.t)
    (project : Project BranchType) (base : BranchType) (base_version : Version.t)
    (head : BranchType) (prerelease markdown include_author : bool) :
  let L :=
    load_lines Version_parse project base_version None
      (completion_order (prs_between project base head)) in
  let unified :=
    map (line_msg project markdown include_author)
      (filter (fun x => negb (has_dependency_label (snd x))) L) in
  let blocks :=
    [heading_str "Full list of changes" markdown 2]
      ++ label_sections prerelease markdown LABEL_HEADERS
           (fun l => group_lines project markdown include_author l L)
      ++ [heading_str "All changes" markdown 3]
      ++ collapse_open markdown unified ++ [EmptyString]
      ++ deps_blocks markdown true
           (group_lines project markdown include_author "dependencies" L) in
  generate_blocks Version_parse Version_str completion_order now project base
    base_version head None prerelease markdown true include_author
  = inr blocks
  /\ generate Version_parse Version_str completion_order now project base
       base_version head None prerelease markdown true include_author
     = inr (join nl blocks)
  /\ forall now' head_version',
       ~ In (heading_str (release_title Version_str now' head_version') false 2)
           blocks.
Proof.
  cbv zeta.
  set (L := load_lines Version_parse project base_version None
              (completion_order (prs_between project base head))).
  set (unified := map (line_msg project markdown include_author)
                    (filter (fun x => negb (has_dependency_label (snd x))) L)).
  assert (Hspec :
            generate_blocks Version_parse Version_str completion_order now project
              base base_version head None prerelease markdown true include_author
            = inr (head_blocks Version_str now None prerelease markdown true
                     (fun l => group_lines project markdown include_author l L)
                   ++ changes_block markdown true unified
                   ++ deps_blocks markdown true
                        (group_lines project markdown include_author
                           "dependencies" L))).
  { apply generate_blocks_spec. }
  assert (Heq :
            [heading_str "Full list of changes" markdown 2]
              ++ label_sections prerelease markdown LABEL_HEADERS
                   (fun l => group_lines project markdown include_author l L)
              ++ [heading_str "All changes" markdown 3]
              ++ collapse_open markdown unified ++ [EmptyString]
              ++ deps_blocks markdown true
                   (group_lines project markdown include_author "dependencies" L)
            = head_blocks Version_str now None prerelease markdown true
                (fun l => group_lines project markdown include_author l L)
              ++ changes_block markdown true unified
              ++ deps_blocks markdown true
                   (group_lines project markdown include_author "dependencies" L)).
  { rewrite changes_block_sections. unfold head_blocks. cbn [is_patch_release].
    now rewrite <- !app_assoc. }
  rewrite Heq. split; [exact Hspec |]. split.
  - unfold generate. now rewrite Hspec.
  - intros now' head_version' Hb.
    apply full_document_first_char in Hb;
      [| intros l; apply group_lines_dash | apply unified_dash
       | apply group_lines_dash | reflexivity].
    apply Hb. apply release_first_char.
Qed.

(** ** The order of versions *)

Lemma Version_compare_antisym (a b : Version.t) :
  Version.compare b a = CompOpp (Version.compare a b).
Proof.
  unfold Version.compare.
  rewrite (N.compare_antisym (Version.major a) (Version.major b)).
  rewrite (N.compare_antisym (Version.minor a) (Version.minor b)).
  rewrite (N.compare_antisym (Version.patch a) (Version.patch b)).
  destruct (Version.major a ?= Version.major b)%N; cbn [CompOpp]; try reflexivity.
  destruct (Version.minor a ?= Version.minor b)%N; cbn [CompOpp]; try reflexivity.
  destruct (Version.patch a ?= Version.patch b)%N; cbn [CompOpp]; try reflexivity.
  destruct (Version.beta a), (Version.beta b); reflexivity.
Qed.

Lemma Version_gtb_leb (a b : Version.t) : Version.gtb a b = negb (Version.leb a b).
Proof. unfold Version.gtb, Version.leb. now destruct (Version.compare a b). Qed.

Lemma Version_ltb_leb (a b : Version.t) : Version.ltb b a = negb (Version.leb a b).
Proof.
  unfold Version.ltb, Version.leb. rewrite (Version_compare_antisym a b).
  now destruct (Version.compare a b).
Qed.

(** ** The eligibility filter *)

Lemma lines_append_neq (x : PullRequest.t * list string) (st : state) :
  lines_append x st <> st.
Proof.
  intros H. apply (f_equal (fun s => List.length (lines s))) in H.
  unfold lines_append in H. cbn [lines] in H.
  rewrite length_app in H. cbn [List.length] in H. lia.
Qed.

Lemma job_cherry_picked (project : Project BranchType) base_version head_version n st :
  is_reverted project n = false ->
  In "cherry-picked" (labels_of (get_pr project n)) ->
  job Version_parse project base_version head_version n st
  = let pr := get_pr project n in
    match PullRequest.milestone pr with
    | None =>
        lines_append (pr, labels_of pr)
          (print ("PR " ++ str_of_N (PullRequest.number pr) ++ " has no milestone") st)
    | Some m =>
        match Version_parse (Milestone.title m) with
        | None =>
            lines_append (pr, list_remove "cherry-picked" (labels_of pr))
              (print ("Could not parse milestone " ++ Milestone.title m) st)
        | Some pick_version =>
            if Version.leb pick_version base_version then st
            else
              match head_version with
              | None =>
                  lines_append (pr, labels_of pr)
                    (print ("PR " ++ str_of_N (PullRequest.number pr)
                              ++ " has no milestone") st)
              | Some head_version =>
                  if Version.gtb pick_version head_version then st
                  else lines_append (pr, labels_of pr) st
              end
        end
    end.
Proof.
  intros Hr Hc. apply str_in_In in Hc.
  unfold job, is_reverted, labels_of in *. rewrite Hr, Hc. reflexivity.
Qed.

(** C4: a record that carries [cherry-picked] and comes to the milestone
    test, that is, one the [reverted] test before it has not already left
    out, and whose milestone parses to [pick_version], is left out exactly
    when [pick_version <= base_version] or [pick_version > head_version]; it
    is included, its labels unchanged, exactly when
    [base_version < pick_version <= head_version]. *)
Theorem C4_cherry_pick_window (project : Project BranchType)
    (base_version head_version : Version.t) (n : N) (st : state)
    (m : Milestone.t) (pick_version : Version.t) :
  is_reverted project n = false ->
  In "cherry-picked" (labels_of (get_pr project n)) ->
  PullRequest.milestone (get_pr project n) = Some m ->
  Version_parse (Milestone.title m) = Some pick_version ->
  let pr := get_pr project n in
  let st' := job Version_parse project base_version (Some head_version) n st in
  (st' = st
   <-> Version.leb pick_version base_version = true
       \/ Version.gtb pick_version head_version = true)
  /\ (st' = lines_append (pr, labels_of pr) st
      <-> Version.ltb base_version pick_version = true
          /\ Version.leb pick_version head_version = true).
Proof.
  intros Hr Hc Hm Hp. cbv zeta.
  rewrite (job_cherry_picked _ _ _ _ _ Hr Hc). cbv zeta. rewrite Hm, Hp.
  rewrite Version_ltb_leb, Version_gtb_leb.
  destruct (Version.leb pick_version base_version);
    destruct (Version.leb pick_version head_version); cbn [negb];
    (split; split; intros H);
    try reflexivity; try (destruct H; discriminate); try discriminate;
    try (now left); try (now right); try (now split);
    try (symmetry in H; now apply lines_append_neq in H);
    try (now apply lines_append_neq in H).
Qed.



(** ** Classification keeps the merge order *)

Lemma group_lines_records (project : Project BranchType) markdown include_author l lines :
  group_lines project markdown include_author l lines
  = map (line_msg project markdown include_author) (group_records l lines).
Proof.
  unfold group_lines, group_records.
  induction lines as [| x lines IH]; cbn [flat_map map]; [reflexivity |].
  now rewrite map_app, map_repeat, IH.
Qed.

Lemma group_records_incl l lines x : In x (group_records l lines) -> In x lines.
Proof.
  unfold group_records. rewrite in_flat_map. intros (y & Hy & Hx).
  apply repeat_spec in Hx. now subst.
Qed.

Lemma group_records_sorted l lines :
  StronglySorted merged_le lines -> StronglySorted merged_le (group_records l lines).
Proof.
  unfold group_records.
  induction 1 as [| x lines Hs IH Hall]; cbn [flat_map]; [constructor |].
  induction (count_occ string_dec (snd x) l) as [| k IHk]; cbn [repeat app];
    [exact IH |].
  constructor; [exact IHk |].
  apply Forall_app. split.
  - rewrite Forall_forall. intros y Hy. apply repeat_spec in Hy. subst y.
    unfold merged_le. lia.
  - rewrite Forall_forall in *. intros y Hy.
    apply Hall. exact (group_records_incl l lines y Hy).
Qed.

(** C8: the unified list follows the merge times of the records in
    ascending order, and so does every group: classification appends the
    lines in the order of the sorted list and sorts nothing again. *)
Theorem C8_merge_order_kept (project : Project BranchType)
    (base_version : Version.t) (head_version : option Version.t) (order : list N)
    (markdown with_sections include_author : bool) :
  let L := load_lines Version_parse project base_version head_version order in
  let r := serialize project markdown with_sections include_author L in
  Permutation
    (lines (run_jobs Version_parse project base_version head_version order
              (mkState [] [])))
    L
  /\ StronglySorted merged_le L
  /\ fst r
     = map (line_msg project markdown include_author)
         (filter (in_unified with_sections) L)
  /\ StronglySorted merged_le (filter (in_unified with_sections) L)
  /\ forall label,
       dd_lookup label (snd r)
       = map (line_msg project markdown include_author) (group_records label L)
       /\ StronglySorted merged_le (group_records label L).
Proof.
  cbv zeta.
  set (L := load_lines Version_parse project base_version head_version order).
  destruct (serialize_spec project markdown with_sections include_author L)
    as (d & -> & Hg & _).
  cbn [fst snd].
  split; [apply sort_lines_perm |].
  split; [apply sort_lines_sorted |].
  split; [reflexivity |].
  split; [apply StronglySorted_filter, sort_lines_sorted |].
  intros label. split.
  - now rewrite Hg, group_lines_records.
  - apply group_records_sorted, sort_lines_sorted.
Qed.

(** C7: with section mode enabled, an included record that carries a
    dependency label is left out of the unified list; its line is in the
    group of each of its labels and in the block that follows the
    "Dependency Changes" heading at the end of the document. *)
Theorem C7_dependency_records_left_out (now : Datetime.t)
    (project : Project BranchType) (base : BranchType) (base_version : Version.t)
    (head : BranchType) (head_version : option Version.t)
    (prerelease markdown include_author : bool)
    (x : PullRequest.t * list string) :
  let L :=
    load_lines Version_parse project base_version head_version
      (completion_order (prs_between project base head)) in
  let r := serialize project markdown true include_author L in
  In x L ->
  has_dependency_label (snd x) = true ->
  fst r
  = map (line_msg project markdown include_author)
      (filter (fun y => negb (has_dependency_label (snd y))) L)
  /\ ~ In x (filter (fun y => negb (has_dependency_label (snd y))) L)
  /\ (forall l,
        In l (snd x) ->
        In (line_msg project markdown include_author x) (dd_lookup l (snd r)))
  /\ exists body,
       generate_blocks Version_parse Version_str completion_order now project base
         base_version head head_version prerelease markdown true include_author
       = inr (body
              ++ heading_str "Dependency Changes" markdown 3
                   :: collapse_deps markdown (dd_lookup "dependencies" (snd r)))
       /\ In (if markdown then line_msg project markdown include_author x
              else ("    " ++ line_msg project markdown include_author x)%string)
             (collapse_deps markdown (dd_lookup "dependencies" (snd r))).
Proof.
  cbv zeta.
  set (L := load_lines Version_parse project base_version head_version
              (completion_order (prs_between project base head))).
  intros Hx Hd.
  destruct (serialize_spec project markdown true include_author L)
    as (d & Hs & Hg & _).
  rewrite Hs. cbn [fst snd].
  split; [reflexivity |].
  split.
  { intros Hin. apply filter_In in Hin. destruct Hin as [_ Hin].
    rewrite Hd in Hin. discriminate. }
  assert (Hgroup : forall l, In l (snd x) ->
                     In (line_msg project markdown include_author x) (dd_lookup l d)).
  { intros l Hl. rewrite Hg. apply group_lines_In. exists x. auto. }
  split; [exact Hgroup |].
  assert (Hdep : In (line_msg project markdown include_author x)
                   (dd_lookup "dependencies" d)).
  { apply Hgroup. now apply has_dependency_label_In. }
  exists (head_blocks Version_str now head_version prerelease markdown true
            (fun l => group_lines project markdown include_author l L)
          ++ changes_block markdown true
               (map (line_msg project markdown include_author)
                  (filter (in_unified true) L))).
  split.
  - rewrite generate_blocks_spec. fold L. rewrite <- app_assoc. do 3 f_equal.
    rewrite Hg in *. unfold deps_blocks.
    destruct (group_lines project markdown include_author "dependencies" L);
      [contradiction | reflexivity].
  - unfold collapse_deps. destruct markdown.
    + apply in_or_app. right. apply in_or_app. now left.
    + apply in_or_app. right. apply in_or_app. left.
      apply in_map_iff. eexists. split; [reflexivity | exact Hdep].
Qed.

(** ** Reverted records *)

Lemma run_jobs_without (project : Project BranchType) base_version head_version n order st :
  is_reverted project n = true ->
  run_jobs Version_parse project base_version head_version order st
  = run_jobs Version_parse project base_version head_version
      (filter (fun m => negb (m =? n)%N) order) st.
Proof.
  intros Hr. unfold run_jobs. revert st.
  induction order as [| m order IH]; intros st; cbn [fold_left filter]; [reflexivity |].
  destruct (m =? n)%N eqn:E; cbn [negb fold_left].
  - apply N.eqb_eq in E. subst m. rewrite job_reverted by exact Hr. apply IH.
  - apply IH.
Qed.

(** C9: a record that carries [reverted] is left out whatever its other
    labels are.  Its job leaves the state as it was, so the run is the run
    without it; no entry of the sorted lines is this record, and every line
    of the unified list, of a group and of the dependency changes is the
    line of another record. *)
Theorem C9_reverted_excluded (project : Project BranchType)
    (base_version : Version.t) (head_version : option Version.t) (n : N) :
  In "reverted" (labels_of (get_pr project n)) ->
  (forall st, job Version_parse project base_version head_version n st = st)
  /\ (forall order st,
        run_jobs Version_parse project base_version head_version order st
        = run_jobs Version_parse project base_version head_version
            (filter (fun m => negb (m =? n)%N) order) st)
  /\ forall order markdown with_sections include_author,
       let L := load_lines Version_parse project base_version head_version order in
       let r := serialize project markdown with_sections include_author L in
       (forall x, In x L -> fst x <> get_pr project n /\ ~ In "reverted" (snd x))
       /\ (forall m,
             In m (fst r) ->
             exists x, In x L /\ fst x <> get_pr project n
                       /\ m = line_msg project markdown include_author x)
       /\ (forall label m,
             In m (dd_lookup label (snd r)) ->
             exists x, In x L /\ fst x <> get_pr project n
                       /\ m = line_msg project markdown include_author x)
       /\ (forall m,
             In m (depdendency_prs (snd r)) ->
             exists x, In x L /\ fst x <> get_pr project n
                       /\ m = line_msg project markdown include_author x)
       /\ dd_lookup "reverted" (snd r) = [].
Proof.
  intros Hin.
  assert (Hr : is_reverted project n = true) by (now apply str_in_In).
  split; [intros st; now apply job_reverted |].
  split; [intros order st; now apply run_jobs_without |].
  intros order markdown with_sections include_author. cbv zeta.
  set (L := load_lines Version_parse project base_version head_version order).
  assert (HL : forall x, In x L ->
                 fst x <> get_pr project n /\ ~ In "reverted" (snd x)).
  { intros x Hx. apply load_lines_entries in Hx.
    destruct Hx as (m & _ & Hf & Hm & Hincl).
    unfold is_reverted in Hm. apply str_in_false in Hm. rewrite <- Hf in Hm.
    split.
    - intros He. apply Hm. now rewrite He.
    - intros Hs. apply Hm. now apply Hincl. }
  destruct (serialize_spec project markdown with_sections include_author L)
    as (d & -> & Hg & Hn).
  cbn [fst snd].
  assert (Hgroup : forall label m, In m (dd_lookup label d) ->
                     exists x, In x L /\ fst x <> get_pr project n
                               /\ m = line_msg project markdown include_author x).
  { intros label m Hm. rewrite Hg in Hm. apply group_lines_In in Hm.
    destruct Hm as (x & Hx & _ & ->). exists x.
    split; [exact Hx |]. split; [apply (HL x Hx) | reflexivity]. }
  split; [exact HL |].
  split.
  { intros m Hm. apply in_map_iff in Hm. destruct Hm as (x & <- & Hx).
    apply filter_In in Hx. destruct Hx as [Hx _]. exists x.
    split; [exact Hx |]. split; [apply (HL x Hx) | reflexivity]. }
  split; [exact Hgroup |].
  split.
  { intros m Hm. rewrite (depdendency_prs_lookup d Hn) in Hm.
    exact (Hgroup _ m Hm). }
  rewrite Hg. apply group_lines_nil. intros x Hx. apply (HL x Hx).
Qed.

End Properties.

(** * The properties on concrete records *)

(** ** Annotations *)

(** C1 as stated fails: two records whose label lists are permutations of
    each other get different lines, and the first line carries its tags
    against the declared order of the annotation list. *)
Lemma C1_label_order_counterexample :
  Permutation (labels_of Demo.pr_tags) (labels_of Demo.pr_tags_swapped)
  /\ LINE_LABELS
     = ["new-feature"; "new-component"; "new-platform"; "breaking-change";
        "notable-change"]
  /\ Demo.blocks [Demo.pr_tags] Demo.base None false false false
     = inr ["- C :esphomepr:`3` by :ghuser:`bob` (breaking-change) (new-feature)";
            EmptyString]
  /\ Demo.blocks [Demo.pr_tags_swapped] Demo.base None false false false
     = inr ["- C :esphomepr:`3` by :ghuser:`bob` (new-feature) (breaking-change)";
            EmptyString]
  /\ line_msg (Demo.project_of [Demo.pr_tags]) false true
       (Demo.pr_tags, labels_of Demo.pr_tags)
     <> line_msg (Demo.project_of [Demo.pr_tags]) false true
          (Demo.pr_tags, labels_of Demo.pr_tags_swapped).
Proof.
  split; [apply perm_swap |].
  split; [reflexivity |].
  split; [vm_compute; reflexivity |].
  split; [vm_compute; reflexivity |].
  vm_compute. discriminate.
Qed.

(** ** Dependency changes *)

(** C2 as stated fails: with section mode disabled an included record that
    carries a dependency label leaves no "Dependency Changes" heading in the
    document. *)
Lemma C2_no_sections_counterexample :
  In (Demo.pr_dep, ["dependencies"])
    (load_lines Version.parse (Demo.project_of [Demo.pr_dep]) Demo.base None [2%N])
  /\ Demo.blocks [Demo.pr_dep] Demo.base None false false false
     = inr ["- B :esphomepr:`2` by :ghuser:`bob`"; EmptyString]
  /\ Demo.blocks [Demo.pr_dep] Demo.base None false true false
     = inr ["- B [esphome#2](u) by [@bob](p)"; EmptyString]
  /\ ~ In (heading_str "Dependency Changes" false 3)
         ["- B :esphomepr:`2` by :ghuser:`bob`"; EmptyString]
  /\ ~ In (heading_str "Dependency Changes" true 3)
         ["- B [esphome#2](u) by [@bob](p)"; EmptyString].
Proof.
  split; [vm_compute; left; reflexivity |].
  split; [vm_compute; reflexivity |].
  split; [vm_compute; reflexivity |].
  split; vm_compute; intros [H | [H | []]]; discriminate.
Qed.

(** ** All changes *)

(** C3 as stated fails: for the non-beta patch version 2024.3.2 with
    section mode enabled the document has the collapsible block and no "All
    changes" heading, in either format. *)
Lemma C3_patch_release_counterexample :
  is_patch_release (Some Demo.head_patch) = true
  /\ Demo.blocks [Demo.pr_dep] Demo.base (Some Demo.head_patch) false false true
     = inr [heading_str "Release 2024.3.2 - March 7" false 2;
            ".. collapse:: Show"; "    :open:"; EmptyString; EmptyString;
            heading_str "Dependency Changes" false 3;
            ".. collapse:: Show"; EmptyString;
            "    - B :esphomepr:`2` by :ghuser:`bob`"; EmptyString]
  /\ Demo.blocks [Demo.pr_dep] Demo.base (Some Demo.head_patch) false true true
     = inr ["<details>"; "<summary>Show</summary>"; EmptyString; "</details>";
            EmptyString;
            heading_str "Dependency Changes" true 3;
            "<details>"; "<summary>Show</summary>"; EmptyString;
            "- B [esphome#2](u) by [@bob](p)"; "</details>"]
  /\ (forall blocks,
        Demo.blocks [Demo.pr_dep] Demo.base (Some Demo.head_patch) false false true
        = inr blocks ->
        ~ In (heading_str "All changes" false 3) blocks)
  /\ (forall blocks,
        Demo.blocks [Demo.pr_dep] Demo.base (Some Demo.head_patch) false true true
        = inr blocks ->
        ~ In (heading_str "All changes" true 3) blocks).
Proof.
  split; [reflexivity |].
  split; [vm_compute; reflexivity |].
  split; [vm_compute; reflexivity |].
  split; intros blocks Hb; vm_compute in Hb; injection Hb as <-;
    vm_compute; intros H;
    repeat (destruct H as [H | H]; [discriminate |]); exact H.
Qed.

(** ** Cherry-picked records *)

(** The window of C4 at the record of the specification: milestone
    2024.3.0, base 2024.2.0, head 2024.3.1. *)
Lemma C4_cherry_pick_window_witness :
  is_reverted (Demo.project_of [Demo.pr_pick]) 7 = false
  /\ In "cherry-picked" (labels_of (get_pr (Demo.project_of [Demo.pr_pick]) 7))
  /\ PullRequest.milestone (get_pr (Demo.project_of [Demo.pr_pick]) 7)
     = Some (Milestone.mk "2024.3.0")
  /\ Version.parse "2024.3.0" = Some (Demo.v 2024 3 0)
  /\ Demo.job1 Demo.pr_pick Demo.base (Some Demo.head)
     = lines_append (Demo.pr_pick, ["cherry-picked"]) (mkState [] []).
Proof.
  assert (H1 : is_reverted (Demo.project_of [Demo.pr_pick]) 7 = false)
    by reflexivity.
  assert (H2 : In "cherry-picked"
                 (labels_of (get_pr (Demo.project_of [Demo.pr_pick]) 7)))
    by (vm_compute; left; reflexivity).
  assert (H3 : PullRequest.milestone (get_pr (Demo.project_of [Demo.pr_pick]) 7)
               = Some (Milestone.mk "2024.3.0"))
    by reflexivity.
  assert (H4 : Version.parse (Milestone.title (Milestone.mk "2024.3.0"))
               = Some (Demo.v 2024 3 0))
    by reflexivity.
  split; [exact H1 |]. split; [exact H2 |]. split; [exact H3 |].
  split; [exact H4 |].
  apply (proj2 (C4_cherry_pick_window Version.parse
                  (Demo.project_of [Demo.pr_pick]) Demo.base Demo.head 7
                  (mkState [] []) (Milestone.mk "2024.3.0") (Demo.v 2024 3 0)
                  H1 H2 H3 H4)).
  split; reflexivity.
Defined.




(** ** Dependency records and reverted records *)

(** C7 at the record of the specification, with the labels [new-feature]
    and [dependencies]. *)
Lemma C7_dependency_records_left_out_witness :
  let project := Demo.project_of [Demo.pr_feature_dep] in
  let x := (Demo.pr_feature_dep, ["new-feature"; "dependencies"]) in
  let L := load_lines Version.parse project Demo.base (Some Demo.head_minor) [1%N] in
  In x L
  /\ has_dependency_label (snd x) = true
  /\ ~ In x (filter (fun y => negb (has_dependency_label (snd y))) L)
  /\ forall l,
       In l (snd x) ->
       In (line_msg project false true x)
          (dd_lookup l (snd (serialize project false true true L))).
Proof.
  cbv zeta.
  assert (H1 : In (Demo.pr_feature_dep, ["new-feature"; "dependencies"])
                 (load_lines Version.parse (Demo.project_of [Demo.pr_feature_dep])
                    Demo.base (Some Demo.head_minor)
                    ((fun order : list N => order)
                       (prs_between (Demo.project_of [Demo.pr_feature_dep]) tt tt))))
    by (vm_compute; left; reflexivity).
  assert (H2 : has_dependency_label
                 (snd (Demo.pr_feature_dep, ["new-feature"; "dependencies"]))
               = true)
    by reflexivity.
  destruct (C7_dependency_records_left_out Version.parse Version.str
              (fun order => order) Demo.now (Demo.project_of [Demo.pr_feature_dep])
              tt Demo.base tt (Some Demo.head_minor) true false true
              (Demo.pr_feature_dep, ["new-feature"; "dependencies"]) H1 H2)
    as (_ & Hout & Hgroups & _).
  split; [exact H1 |]. split; [exact H2 |]. split; [exact Hout | exact Hgroups].
Defined.

(** C9 at a reverted record that is also cherry-picked into the window. *)
Lemma C9_reverted_excluded_witness :
  let project := Demo.project_of [Demo.pr_reverted_pick; Demo.pr_pick] in
  In "reverted" (labels_of (get_pr project 8))
  /\ (forall st, job Version.parse project Demo.base (Some Demo.head) 8 st = st)
  /\ forall x,
       In x (load_lines Version.parse project Demo.base (Some Demo.head) [8%N; 7%N]) ->
       fst x <> get_pr project 8.
Proof.
  cbv zeta.
  assert (H1 : In "reverted"
                 (labels_of
                    (get_pr (Demo.project_of [Demo.pr_reverted_pick; Demo.pr_pick]) 8)))
    by (vm_compute; left; reflexivity).
  destruct (C9_reverted_excluded Version.parse
              (Demo.project_of [Demo.pr_reverted_pick; Demo.pr_pick])
              Demo.base (Some Demo.head) 8 H1)
    as (Hjob & _ & Hdoc).
  split; [exact H1 |]. split; [exact Hjob |].
  intros x Hx.
  destruct (Hdoc [8%N; 7%N] false false false) as (HL & _).
  exact (proj1 (HL x Hx)).
Defined.

(** * Further properties of the module *)

(** ** [format_heading] *)

Lemma str_mul_char_length (n : nat) (c : ascii) :
  String.length (str_mul n (String c EmptyString)) = n.
Proof. induction n as [| n IH]; simpl; [reflexivity | now rewrite IH]. Qed.

Lemma str_mul_char_get (n : nat) (c : ascii) (i : nat) (ch : ascii) :
  String.get i (str_mul n (String c EmptyString)) = Some ch -> ch = c.
Proof.
  revert i. induction n as [| n IH]; intros i; simpl; [discriminate |].
  destruct i as [| i]; [intros H; now injection H | apply IH].
Qed.

(** X1: [format_heading] raises [KeyError] exactly for the plain format at a
    level other than 1, 2 and 3; Markdown headings exist at every level. *)
Theorem format_heading_KeyError (title : string) (markdown : bool) (level : nat) :
  format_heading title markdown level = inl KeyError
  <-> markdown = false /\ (level = 0 \/ 3 < level)%nat.
Proof.
  unfold format_heading. destruct markdown.
  - split; [discriminate | intros [H _]; discriminate].
  - destruct level as [| [| [| [| level]]]]; cbn; split;
      try discriminate; try (intros [_ [H | H]]; lia);
      intros _; split; try reflexivity; lia.
Qed.

(** X2: in the plain format the title is underlined over its whole length with
    the character of the level. *)
Theorem format_heading_underline (title : string) (level : nat) :
  (1 <= level <= 3)%nat ->
  exists c underline,
    nth_error ["="%char; "-"%char; "^"%char] (level - 1) = Some c
    /\ format_heading title false level
       = inr (title ++ nl ++ underline ++ nl)%string
    /\ String.length underline = String.length title
    /\ forall i ch, String.get i underline = Some ch -> ch = c.
Proof.
  intros Hl.
  assert (H : exists c, nth_error ["="%char; "-"%char; "^"%char] (level - 1) = Some c
                        /\ heading_prefix level = inr (String c EmptyString)).
  { destruct level as [| [| [| [| level]]]]; try lia; eexists; split; reflexivity. }
  destruct H as (c & Hc & Hp).
  exists c, (str_mul (String.length title) (String c EmptyString)).
  split; [exact Hc |]. split.
  - unfold format_heading. rewrite Hp. reflexivity.
  - split; [apply str_mul_char_length |].
    intros i ch. apply str_mul_char_get.
Qed.

(** X2 on concrete data. *)
Lemma format_heading_underline_witness :
  (1 <= 3 <= 3)%nat
  /\ exists underline,
       format_heading "All changes" false 3
       = inr ("All changes" ++ nl ++ underline ++ nl)%string
       /\ String.length underline = 11%nat.
Proof.
  assert (H : (1 <= 3 <= 3)%nat) by lia.
  split; [exact H |].
  destruct (format_heading_underline "All changes" 3 H) as (c & u & _ & Hf & Hlen & _).
  exists u. split; [exact Hf | exact Hlen].
Defined.

(** ** The sort of the lines *)

Lemma insert_line_stable (k : Z) x l :
  filter (fun y => (sort_key y =? k)%Z) (insert_line x l)
  = filter (fun y => (sort_key y =? k)%Z) (x :: l).
Proof.
  induction l as [| y l IH]; [reflexivity |].
  cbn [insert_line].
  destruct (sort_key x <=? sort_key y)%Z eqn:E; [reflexivity |].
  apply Z.leb_gt in E.
  cbn [filter] in *. rewrite IH.
  destruct (sort_key x =? k)%Z eqn:Ex; destruct (sort_key y =? k)%Z eqn:Ey;
    try reflexivity.
  apply Z.eqb_eq in Ex, Ey. lia.
Qed.

(** X3: the sort is stable: records merged at the same time stay in the order
    in which their jobs appended them. *)
Theorem sort_lines_stable (k : Z) (l : list (PullRequest.t * list string)) :
  filter (fun y => (sort_key y =? k)%Z) (sort_lines l)
  = filter (fun y => (sort_key y =? k)%Z) l.
Proof.
  induction l as [| x l IH]; [reflexivity |].
  cbn [sort_lines fold_right]. fold (sort_lines l).
  rewrite insert_line_stable. cbn [filter]. now rewrite IH.
Qed.

Lemma sorted_perm_unique (l1 l2 : list (PullRequest.t * list string)) :
  StronglySorted merged_le l1 -> StronglySorted merged_le l2 ->
  Permutation l1 l2 -> NoDup (map sort_key l1) -> l1 = l2.
Proof.
  intros H1. revert l2.
  induction H1 as [| x l1 Hs1 IH Hall1]; intros l2 H2 Hp Hnd.
  - apply Permutation_nil in Hp. now subst.
  - destruct H2 as [| y l2 Hs2 Hall2].
    + apply Permutation_sym, Permutation_nil in Hp. discriminate.
    + cbn [map] in Hnd. inversion Hnd as [| ? ? Hnx Hnd']; subst.
      assert (Hxy : x = y).
      { assert (Hx : In x (y :: l2)) by (apply (Permutation_in _ Hp); now left).
        assert (Hy : In y (x :: l1))
          by (apply (Permutation_in _ (Permutation_sym Hp)); now left).
        destruct Hx as [Hx | Hx]; [now symmetry |].
        destruct Hy as [Hy | Hy]; [exact Hy |].
        rewrite Forall_forall in Hall1, Hall2.
        pose proof (Hall1 y Hy) as Hle1. pose proof (Hall2 x Hx) as Hle2.
        assert (Hk : sort_key x = sort_key y)
          by (unfold merged_le in Hle1, Hle2; unfold sort_key; lia).
        exfalso. apply Hnx. rewrite Hk. now apply in_map. }
      subst y. f_equal. apply IH; [exact Hs2 | | exact Hnd'].
      now apply Permutation_cons_inv in Hp.
Qed.

Section MoreProperties.

Context {BranchType : Type}.
Variable Version_parse : string -> option Version.t.
Variable Version_str : Version.t -> string.
Variable completion_order : list N -> list N.

(** ** The jobs only append *)

Lemma job_appends_one (project : Project BranchType) base_version head_version n :
  (List.length
     (lines (job Version_parse project base_version head_version n (mkState [] [])))
   <= 1)%nat
  /\ (List.length
        (stdout (job Version_parse project base_version head_version n
                   (mkState [] [])))
      <= 1)%nat.
Proof.
  unfold job, lines_append, print.
  repeat match goal with
         | |- context [if ?b then _ else _] => destruct b
         | |- context [match ?o with Some _ => _ | None => _ end] => destruct o
         end;
    cbn [lines stdout app List.length]; lia.
Qed.

(** X5: whatever the records are, the jobs keep what the shared state holds and
    add at most one line and one diagnostic each: there are never more
    lines than pull requests. *)
Theorem run_jobs_appends (project : Project BranchType) (base_version : Version.t)
    (head_version : option Version.t) (order : list N) (st : state) :
  exists new out,
    run_jobs Version_parse project base_version head_version order st
    = mkState (lines st ++ new) (stdout st ++ out)
    /\ (List.length new <= List.length order)%nat
    /\ (List.length out <= List.length order)%nat.
Proof.
  unfold run_jobs. revert st.
  induction order as [| n order IH]; intros st; cbn [fold_left].
  - exists [], []. rewrite !app_nil_r. destruct st; auto.
  - destruct (IH (job Version_parse project base_version head_version n st))
      as (new & out & Hr & Hn & Ho).
    rewrite Hr, (job_frame Version_parse project base_version head_version n st).
    cbn [lines stdout].
    destruct (job_appends_one project base_version head_version n) as [H1 H2].
    eexists. eexists. rewrite <- !app_assoc. split; [reflexivity |].
    rewrite !length_app. cbn [List.length]. lia.
Qed.

(** ** The sort makes the document independent of the completion order *)

(** X4: when the merge times of the included records differ from one another,
    the sorted lines, and with them the document, are the same for every
    order in which the jobs complete. *)
Theorem load_lines_order_independent (project : Project BranchType)
    (base_version : Version.t) (head_version : option Version.t)
    (order1 order2 : list N) :
  Permutation order1 order2 ->
  NoDup (map sort_key
           (load_lines Version_parse project base_version head_version order1)) ->
  load_lines Version_parse project base_version head_version order1
  = load_lines Version_parse project base_version head_version order2
  /\ forall now prerelease markdown with_sections include_author,
       assemble Version_str now project head_version prerelease markdown
         with_sections include_author
         (load_lines Version_parse project base_version head_version order1)
       = assemble Version_str now project head_version prerelease markdown
           with_sections include_author
           (load_lines Version_parse project base_version head_version order2).
Proof.
  intros Hp Hnd.
  assert (Heq : load_lines Version_parse project base_version head_version order1
                = load_lines Version_parse project base_version head_version order2).
  { apply sorted_perm_unique; [apply sort_lines_sorted .. | | exact Hnd].
    unfold load_lines.
    rewrite <- (sort_lines_perm
                  (lines (run_jobs Version_parse project base_version head_version
                            order1 (mkState [] [])))).
    rewrite <- (sort_lines_perm
                  (lines (run_jobs Version_parse project base_version head_version
                            order2 (mkState [] [])))).
    rewrite !run_jobs_lines. cbn [lines app].
    now apply Permutation_flat_map. }
  split; [exact Heq | intros; now rewrite Heq].
Qed.

(** ** The shapes of the document *)

Lemma filter_all {A : Type} (f : A -> bool) (l : list A) :
  (forall x, f x = true) -> filter f l = l.
Proof.
  intros H. induction l as [| x l IH]; cbn [filter]; [reflexivity |].
  now rewrite H, IH.
Qed.

(** X6: with section mode disabled the document is the line of every included
    record, dependency records too, in merge order, and one empty block:
    no heading and no collapsible block. *)
Theorem generate_flat (now : Datetime.t) (project : Project BranchType)
    (base : BranchType) (base_version : Version.t) (head : BranchType)
    (head_version : option Version.t) (prerelease markdown include_author : bool) :
  let L :=
    load_lines Version_parse project base_version head_version
      (completion_order (prs_between project base head)) in
  generate_blocks Version_parse Version_str completion_order now project base
    base_version head head_version prerelease markdown false include_author
  = inr (map (line_msg project markdown include_author) L ++ [EmptyString])
  /\ generate Version_parse Version_str completion_order now project base
       base_version head head_version prerelease markdown false include_author
     = inr (join nl (map (line_msg project markdown include_author) L
                     ++ [EmptyString])).
Proof.
  cbv zeta.
  assert (H : generate_blocks Version_parse Version_str completion_order now
                project base base_version head head_version prerelease markdown
                false include_author
              = inr (map (line_msg project markdown include_author)
                       (load_lines Version_parse project base_version head_version
                          (completion_order (prs_between project base head)))
                     ++ [EmptyString])).
  { rewrite generate_blocks_spec. unfold head_blocks, changes_block, deps_blocks.
    rewrite filter_all by reflexivity. cbn [app]. now rewrite app_nil_r. }
  split; [exact H |]. unfold generate. now rewrite H.
Qed.

(** X7: with no included record the document still renders: the headings of
    its shape around an empty collapsible block in section mode, one empty
    block otherwise; there is no label sub-heading and no "Dependency
    Changes" block. *)
Theorem assemble_empty (now : Datetime.t) (project : Project BranchType)
    (head_version : option Version.t)
    (prerelease markdown with_sections include_author : bool) :
  assemble Version_str now project head_version prerelease markdown with_sections
    include_author []
  = inr (if with_sections then
           (if is_patch_release head_version then
              if markdown then []
              else [heading_str (release_title Version_str now head_version) false 2]
            else [heading_str "Full list of changes" markdown 2;
                  heading_str "All changes" markdown 3])
             ++ collapse_open markdown [] ++ [EmptyString]
         else [EmptyString]).
Proof.
  rewrite assemble_spec. unfold head_blocks, deps_blocks, changes_block.
  destruct with_sections; [| reflexivity].
  cbn [group_lines flat_map filter map].
  rewrite app_nil_r.
  destruct (is_patch_release head_version); [reflexivity |].
  destruct prerelease; reflexivity.
Qed.

(** ** Headings and their titles *)

Lemma string_length_append (a b : string) :
  String.length (a ++ b)%string = (String.length a + String.length b)%nat.
Proof. induction a as [| c a IH]; simpl; [reflexivity | now rewrite IH]. Qed.

Lemma append_eq_length (a b x y : string) :
  (a ++ x)%string = (b ++ y)%string -> String.length a = String.length b -> a = b.
Proof.
  revert b. induction a as [| c a IH]; intros [| d b] H Hl; simpl in *;
    try discriminate; [reflexivity |].
  injection H as -> H. f_equal. apply (IH b H). lia.
Qed.

Lemma append_inj_r (a b c : string) : (a ++ c)%string = (b ++ c)%string -> a = b.
Proof.
  intros H. apply (append_eq_length a b c c H).
  apply (f_equal String.length) in H. rewrite !string_length_append in H. lia.
Qed.

Lemma heading_str_plain (t : string) :
  heading_str t false 3
  = (t ++ nl ++ str_mul (String.length t) (String "^" EmptyString) ++ nl)%string.
Proof. reflexivity. Qed.

Lemma heading_str_md (t : string) :
  heading_str t true 3 = ("### " ++ t ++ nl)%string.
Proof. reflexivity. Qed.

(** A heading of level 3 determines its title. *)
Lemma heading_str_inj (t t' : string) (markdown : bool) :
  heading_str t markdown 3 = heading_str t' markdown 3 -> t = t'.
Proof.
  destruct markdown.
  - rewrite !heading_str_md. intros H.
    apply append_inj_l in H. now apply append_inj_r in H.
  - rewrite !heading_str_plain. intros H.
    apply (append_eq_length _ _ _ _ H).
    apply (f_equal String.length) in H.
    rewrite !string_length_append, !str_mul_char_length in H. lia.
Qed.

Lemma LABEL_HEADERS_title (l l' t : string) :
  In (l, t) LABEL_HEADERS -> In (l', t) LABEL_HEADERS -> l = l'.
Proof.
  unfold LABEL_HEADERS. cbn [In]. intros H H'.
  repeat destruct H as [H | H]; try contradiction;
    repeat destruct H' as [H' | H']; try contradiction; congruence.
Qed.

Lemma label_title_cases (item : string * string) :
  In item LABEL_HEADERS ->
  In (snd item)
    ["New Features"; "New Components"; "New Platforms"; "Breaking Changes";
     "Beta Changes"; "Notable Changes"].
Proof. intros H. apply (in_map snd) in H. exact H. Qed.

Lemma label_heading_fresh (item : string * string) (markdown : bool) :
  In item LABEL_HEADERS ->
  heading_str (snd item) markdown 3 <> heading_str "Full list of changes" markdown 2
  /\ heading_str (snd item) markdown 3 <> heading_str "All changes" markdown 3
  /\ heading_str (snd item) markdown 3 <> heading_str "Dependency Changes" markdown 3
  /\ ~ plain_block (heading_str (snd item) markdown 3).
Proof.
  intros H. apply label_title_cases in H.
  assert (Hc : exists c, first_char (snd item) = Some c
                         /\ ~ In c ["-"%char; " "%char; "<"%char; "."%char]).
  { cbn [In] in H.
    repeat (destruct H as [<- | H];
            [eexists; split; [reflexivity |]; cbn [In]; intuition discriminate |]).
    contradiction. }
  split; [| split; [| split]].
  - cbn [In] in H.
    repeat (destruct H as [<- | H]; [destruct markdown; vm_compute; discriminate |]).
    contradiction.
  - intros E. apply heading_str_inj in E. rewrite E in H.
    cbn [In] in H. intuition discriminate.
  - intros E. apply heading_str_inj in E. rewrite E in H.
    cbn [In] in H. intuition discriminate.
  - destruct Hc as (c & Hc & Hn).
    exact (heading_not_plain Version_parse _ _ 1 c Hc Hn (le_n 1)).
Qed.

Lemma label_sections_heading prerelease markdown headers (g : string -> list string) h :
  (forall l, Forall dash_line (g l)) ->
  ~ plain_block h ->
  In h (label_sections prerelease markdown headers g) ->
  exists item,
    In item headers
    /\ negb prerelease && String.eqb (snd item) "Beta Changes" = false
    /\ g (fst item) <> []
    /\ h = heading_str (snd item) markdown 3.
Proof.
  intros Hg Hnp. unfold label_sections. rewrite in_flat_map.
  intros (item & Hitem & Hb). exists item. split; [exact Hitem |].
  destruct (negb prerelease && String.eqb (snd item) "Beta Changes");
    [contradiction |].
  split; [reflexivity |].
  specialize (Hg (fst item)). rewrite Forall_forall in Hg.
  destruct (g (fst item)) as [| pr prs]; [contradiction |].
  split; [discriminate |].
  destruct Hb as [<- | Hb]; [reflexivity |].
  exfalso. apply Hnp.
  apply (in_app_or (pr :: prs) [EmptyString]) in Hb. destruct Hb as [Hb | Hb].
  - now apply dash_plain, Hg.
  - right. right. simpl in Hb. simpl. tauto.
Qed.

Lemma label_sections_present prerelease markdown headers (g : string -> list string) item :
  In item headers ->
  negb prerelease && String.eqb (snd item) "Beta Changes" = false ->
  g (fst item) <> [] ->
  In (heading_str (snd item) markdown 3) (label_sections prerelease markdown headers g).
Proof.
  intros Hitem Hskip Hne. unfold label_sections. rewrite in_flat_map.
  exists item. split; [exact Hitem |]. rewrite Hskip.
  destruct (g (fst item)); [contradiction | now left].
Qed.

(** X9: in the full sectioned document the sub-heading of a label is there
    exactly when an included record carries the label, and, for "Beta
    Changes", the document is a pre-release: empty groups get no heading. *)
Theorem label_heading_present (now : Datetime.t) (project : Project BranchType)
    (base : BranchType) (base_version : Version.t) (head : BranchType)
    (head_version : option Version.t) (prerelease markdown include_author : bool)
    (label title : string) (blocks : list string) :
  is_patch_release head_version = false ->
  In (label, title) LABEL_HEADERS ->
  generate_blocks Version_parse Version_str completion_order now project base
    base_version head head_version prerelease markdown true include_author
  = inr blocks ->
  In (heading_str title markdown 3) blocks
  <-> (exists x,
         In x (load_lines Version_parse project base_version head_version
                 (completion_order (prs_between project base head)))
         /\ In label (snd x))
      /\ (prerelease = true \/ title <> "Beta Changes").
Proof.
  intros Hp Hitem Hb.
  rewrite generate_blocks_spec in Hb.
  set (L := load_lines Version_parse project base_version head_version
              (completion_order (prs_between project base head))) in *.
  assert (Hblocks :
            blocks
            = head_blocks Version_str now head_version prerelease markdown true
                (fun l => group_lines project markdown include_author l L)
              ++ changes_block markdown true
                   (map (line_msg project markdown include_author)
                      (filter (in_unified true) L))
              ++ deps_blocks markdown true
                   (group_lines project markdown include_author "dependencies" L))
    by congruence.
  clear Hb. subst blocks.
  destruct (label_heading_fresh (label, title) markdown Hitem)
    as (Hfull & Hall & Hdep & Hplain). cbn [snd] in *.
  assert (Hskip : negb prerelease && String.eqb title "Beta Changes" = false
                  <-> prerelease = true \/ title <> "Beta Changes").
  { destruct prerelease; cbn [negb andb].
    - split; auto.
    - rewrite String.eqb_neq. split; [now right | intros [H | H]; [discriminate | exact H]]. }
  assert (Hgroup : group_lines project markdown include_author label L <> []
                   <-> exists x, In x L /\ In label (snd x)).
  { split.
    - intros Hne.
      destruct (group_lines project markdown include_author label L) as [| m ms] eqn:E;
        [contradiction |].
      assert (Hm : In m (group_lines project markdown include_author label L))
        by (rewrite E; now left).
      apply group_lines_In in Hm. destruct Hm as (x & Hx & Hl & _). eauto.
    - intros (x & Hx & Hl) Hnil.
      exact (proj1 (group_lines_nil project markdown include_author label L) Hnil
               x Hx Hl). }
  unfold head_blocks. rewrite Hp. cbv iota. rewrite !in_app_iff. split.
  - intros [[Hin | [Hin | Hin]] | [Hin | Hin]].
    + cbn [In] in Hin. destruct Hin as [Hin | []]. now symmetry in Hin.
    + apply label_sections_heading in Hin;
        [| intros l; apply group_lines_dash | exact Hplain].
      destruct Hin as ([label' title'] & Hitem' & Hs & Hg & He).
      cbn [fst snd] in *. apply heading_str_inj in He. subst title'.
      rewrite <- (LABEL_HEADERS_title _ _ _ Hitem Hitem') in Hg.
      split; [now apply Hgroup | now apply Hskip].
    + cbn [In] in Hin. destruct Hin as [Hin | []]. now symmetry in Hin.
    + exfalso. apply Hplain.
      exact (changes_block_plain Version_parse _ _ _ _
               (unified_dash project _ _ _ L) Hin).
    + unfold deps_blocks in Hin.
      destruct (group_lines project markdown include_author "dependencies" L)
        as [| m ms] eqn:E; [contradiction |].
      destruct Hin as [Hin | Hin]; [now symmetry in Hin |].
      exfalso. apply Hplain.
      apply (collapse_deps_plain Version_parse markdown (m :: ms)); [| exact Hin].
      rewrite <- E. apply group_lines_dash.
  - intros [Hx Hs]. left. right. left.
    apply (label_sections_present prerelease markdown LABEL_HEADERS _ (label, title));
      [exact Hitem | now apply Hskip | now apply Hgroup].
Qed.

(** ** The document of a patch release *)

Lemma label_heading_first_char (item : string * string) :
  In item LABEL_HEADERS ->
  first_char (heading_str (snd item) false 3) <> Some "R"%char.
Proof.
  intros H. apply label_title_cases in H. cbn [In] in H.
  repeat (destruct H as [<- | H]; [vm_compute; discriminate |]).
  contradiction.
Qed.

(** X8: for a non-beta patch version with section mode enabled the document is
    the dated heading (plain format only), the collapsible unified list and
    the dependency changes: it has no "Full list of changes" heading and no
    label sub-heading, whatever the groups hold. *)
Theorem patch_release_document (now : Datetime.t) (project : Project BranchType)
    (base : BranchType) (base_version : Version.t) (head : BranchType)
    (head_version : option Version.t) (prerelease markdown include_author : bool) :
  is_patch_release head_version = true ->
  let L :=
    load_lines Version_parse project base_version head_version
      (completion_order (prs_between project base head)) in
  let unified :=
    map (line_msg project markdown include_author)
      (filter (fun x => negb (has_dependency_label (snd x))) L) in
  let blocks :=
    (if markdown then []
     else [heading_str (release_title Version_str now head_version) false 2])
      ++ collapse_open markdown unified ++ [EmptyString]
      ++ deps_blocks markdown true
           (group_lines project markdown include_author "dependencies" L) in
  generate_blocks Version_parse Version_str completion_order now project base
    base_version head head_version prerelease markdown true include_author
  = inr blocks
  /\ ~ In (heading_str "Full list of changes" markdown 2) blocks
  /\ forall item,
       In item LABEL_HEADERS -> ~ In (heading_str (snd item) markdown 3) blocks.
Proof.
  intros Hp. cbv zeta.
  set (L := load_lines Version_parse project base_version head_version
              (completion_order (prs_between project base head))).
  set (unified := map (line_msg project markdown include_author)
                    (filter (fun x => negb (has_dependency_label (snd x))) L)).
  set (deps := group_lines project markdown include_author "dependencies" L).
  assert (Heq :
            (if markdown then []
             else [heading_str (release_title Version_str now head_version) false 2])
              ++ collapse_open markdown unified ++ [EmptyString]
              ++ deps_blocks markdown true deps
            = head_blocks Version_str now head_version prerelease markdown true
                (fun l => group_lines project markdown include_author l L)
              ++ changes_block markdown true unified
              ++ deps_blocks markdown true deps).
  { rewrite changes_block_sections. unfold head_blocks. rewrite Hp.
    now rewrite <- !app_assoc. }
  rewrite Heq.
  assert (Hout : forall h,
             ~ plain_block h ->
             h <> heading_str "Dependency Changes" markdown 3 ->
             (markdown = false -> first_char h <> Some "R"%char) ->
             ~ In h (head_blocks Version_str now head_version prerelease markdown
                       true
                       (fun l => group_lines project markdown include_author l L)
                     ++ changes_block markdown true unified
                     ++ deps_blocks markdown true deps)).
  { intros h Hplain Hdep Hrel Hin.
    apply (document_blocks Version_parse) in Hin;
      [| intros l; apply group_lines_dash | apply unified_dash
       | apply group_lines_dash].
    destruct Hin as [Hin | [(_ & _ & Hm & ->) | [(_ & Hf & _) | (_ & _ & ->)]]].
    - now apply Hplain.
    - apply (Hrel Hm). apply release_first_char.
    - congruence.
    - now apply Hdep. }
  split; [apply generate_blocks_spec |]. split.
  - apply Hout.
    + apply (heading_not_plain Version_parse _ _ 0 "F"%char);
        [reflexivity | cbn [In]; intuition discriminate | lia].
    + apply dependency_heading_fresh. now left.
    + intros ->. vm_compute. discriminate.
  - intros item Hitem.
    destruct (label_heading_fresh item markdown Hitem) as (_ & _ & Hdep & Hplain).
    apply Hout; [exact Hplain | exact Hdep |].
    intros ->. now apply label_heading_first_char.
Qed.

(** ** Groups of records with distinct labels *)

Lemma list_remove_NoDup (x : string) (l : list string) :
  NoDup l -> NoDup (list_remove x l).
Proof.
  induction 1 as [| y l Hy Hnd IH]; cbn [list_remove]; [constructor |].
  destruct (String.eqb y x) eqn:E; [exact Hnd |].
  constructor; [| exact IH].
  intros Hin. apply Hy.
  destruct (string_dec y x) as [-> | Hne].
  - rewrite String.eqb_refl in E. discriminate.
  - now apply (list_remove_other x y l Hne).
Qed.

Lemma job_entries_NoDup (project : Project BranchType) base_version head_version n :
  NoDup (labels_of (get_pr project n)) ->
  Forall (fun x => NoDup (snd x))
    (lines (job Version_parse project base_version head_version n (mkState [] []))).
Proof.
  intros Hnd. unfold job, lines_append, print. fold (labels_of (get_pr project n)).
  repeat match goal with
         | |- context [if ?b then _ else _] => destruct b
         | |- context [match ?o with Some _ => _ | None => _ end] => destruct o
         end;
    cbn [lines app]; repeat constructor; cbn [snd];
    auto using list_remove_NoDup.
Qed.

(** X10: when the labels of every record are distinct, the group of a label is
    the lines of the included records that carry it, one line per record, in
    merge order: a record with several labels is in the group of each. *)
Theorem groups_by_label (project : Project BranchType)
    (base_version : Version.t) (head_version : option Version.t) (order : list N)
    (markdown with_sections include_author : bool) (label : string) :
  (forall n, NoDup (labels_of (get_pr project n))) ->
  let L := load_lines Version_parse project base_version head_version order in
  dd_lookup label (snd (serialize project markdown with_sections include_author L))
  = map (line_msg project markdown include_author)
      (filter (fun x => str_in label (snd x)) L).
Proof.
  intros Hnd. cbv zeta.
  set (L := load_lines Version_parse project base_version head_version order).
  destruct (serialize_spec project markdown with_sections include_author L)
    as (d & -> & Hg & _).
  cbn [snd]. rewrite Hg. apply group_lines_filter.
  unfold L, load_lines.
  apply (Permutation_Forall (sort_lines_perm _)).
  rewrite run_jobs_lines. cbn [lines app].
  rewrite Forall_forall. intros x Hx. apply in_flat_map in Hx.
  destruct Hx as (n & _ & Hx).
  pose proof (job_entries_NoDup project base_version head_version n (Hnd n)) as Hall.
  rewrite Forall_forall in Hall. exact (Hall x Hx).
Qed.

End MoreProperties.

(** ** The further properties on concrete records *)

Lemma load_lines_order_independent_witness :
  let project := Demo.project_of [Demo.pr_pick; Demo.pr_no_milestone] in
  Permutation [7%N; 12%N] [12%N; 7%N]
  /\ NoDup (map sort_key
              (load_lines Version.parse project Demo.base (Some Demo.head)
                 [7%N; 12%N]))
  /\ load_lines Version.parse project Demo.base (Some Demo.head) [7%N; 12%N]
     = load_lines Version.parse project Demo.base (Some Demo.head) [12%N; 7%N].
Proof.
  cbv zeta.
  assert (H1 : Permutation [7%N; 12%N] [12%N; 7%N]) by apply perm_swap.
  assert (H2 : NoDup (map sort_key
                        (load_lines Version.parse
                           (Demo.project_of [Demo.pr_pick; Demo.pr_no_milestone])
                           Demo.base (Some Demo.head) [7%N; 12%N]))).
  { vm_compute. repeat constructor; cbn [In]; intuition discriminate. }
  split; [exact H1 |]. split; [exact H2 |].
  exact (proj1 (load_lines_order_independent Version.parse Version.str
                  (Demo.project_of [Demo.pr_pick; Demo.pr_no_milestone])
                  Demo.base (Some Demo.head) [7%N; 12%N] [12%N; 7%N] H1 H2)).
Defined.

(** X9 on concrete data. *)
Lemma label_heading_present_witness :
  is_patch_release (Some Demo.head_minor) = false
  /\ In ("new-feature", "New Features") LABEL_HEADERS
  /\ In (heading_str "New Features" false 3)
       [heading_str "Full list of changes" false 2;
        heading_str "New Features" false 3;
        "- A :esphomepr:`1` by :ghuser:`bob` (new-feature)"; EmptyString;
        heading_str "All changes" false 3;
        ".. collapse:: Show"; "    :open:"; EmptyString; EmptyString;
        heading_str "Dependency Changes" false 3;
        ".. collapse:: Show"; EmptyString;
        "    - A :esphomepr:`1` by :ghuser:`bob` (new-feature)"; EmptyString].
Proof.
  assert (H1 : is_patch_release (Some Demo.head_minor) = false) by reflexivity.
  assert (H2 : In ("new-feature", "New Features") LABEL_HEADERS)
    by (left; reflexivity).
  assert (H3 : generate_blocks Version.parse Version.str (fun order => order)
                 Demo.now (Demo.project_of [Demo.pr_feature_dep]) tt Demo.base tt
                 (Some Demo.head_minor) true false true true
               = inr [heading_str "Full list of changes" false 2;
                      heading_str "New Features" false 3;
                      "- A :esphomepr:`1` by :ghuser:`bob` (new-feature)";
                      EmptyString;
                      heading_str "All changes" false 3;
                      ".. collapse:: Show"; "    :open:"; EmptyString; EmptyString;
                      heading_str "Dependency Changes" false 3;
                      ".. collapse:: Show"; EmptyString;
                      "    - A :esphomepr:`1` by :ghuser:`bob` (new-feature)";
                      EmptyString])
    by (vm_compute; reflexivity).
  split; [exact H1 |]. split; [exact H2 |].
  apply (proj2 (label_heading_present Version.parse Version.str (fun order => order)
                  Demo.now (Demo.project_of [Demo.pr_feature_dep]) tt Demo.base tt
                  (Some Demo.head_minor) true false true
                  "new-feature" "New Features" _ H1 H2 H3)).
  split; [| now left].
  exists (Demo.pr_feature_dep, ["new-feature"; "dependencies"]).
  split; [vm_compute; left; reflexivity | left; reflexivity].
Defined.

(** X8 on concrete data. *)
Lemma patch_release_document_witness :
  is_patch_release (Some Demo.head_patch) = true
  /\ Demo.blocks [Demo.pr_feature_dep] Demo.base (Some Demo.head_patch)
       true false true
     = inr [heading_str "Release 2024.3.2 - March 7" false 2;
            ".. collapse:: Show"; "    :open:"; EmptyString; EmptyString;
            heading_str "Dependency Changes" false 3;
            ".. collapse:: Show"; EmptyString;
            "    - A :esphomepr:`1` by :ghuser:`bob` (new-feature)"; EmptyString].
Proof.
  assert (H1 : is_patch_release (Some Demo.head_patch) = true) by reflexivity.
  split; [exact H1 |].
  destruct (patch_release_document Version.parse Version.str (fun order => order)
              Demo.now (Demo.project_of [Demo.pr_feature_dep]) tt Demo.base tt
              (Some Demo.head_patch) true false true H1)
    as (Hdoc & _).
  unfold Demo.blocks. rewrite Hdoc. vm_compute. reflexivity.
Defined.

(** X10 on concrete data. *)
Lemma groups_by_label_witness :
  let project := Demo.project_of [Demo.pr_feature_dep] in
  (forall n, NoDup (labels_of (get_pr project n)))
  /\ dd_lookup "new-feature"
       (snd (serialize project false true true
               (load_lines Version.parse project Demo.base (Some Demo.head_minor)
                  [1%N])))
     = ["- A :esphomepr:`1` by :ghuser:`bob` (new-feature)"].
Proof.
  cbv zeta.
  assert (H1 : forall n,
             NoDup (labels_of (get_pr (Demo.project_of [Demo.pr_feature_dep]) n))).
  { intros n. unfold Demo.project_of. cbn [get_pr find].
    destruct (PullRequest.number Demo.pr_feature_dep =? n)%N;
      vm_compute; repeat constructor; cbn [In]; intuition discriminate. }
  split; [exact H1 |].
  rewrite (groups_by_label Version.parse (Demo.project_of [Demo.pr_feature_dep])
             Demo.base (Some Demo.head_minor) [1%N] false true true "new-feature" H1).
  vm_compute. reflexivity.
Defined.
